(** * Landroid Cloud adapter: feature resolver, readiness gate, republisher

    A shallow embedding of [custom_components/landroid_cloud/api.py] (the
    [LandroidAPI] class) and of the configuration schemes declared in
    [custom_components/landroid_cloud/devices/landxcape.py].

    Python integers are unbounded, so feature masks are [Z] and [|] is
    [Z.lor].  The adapter is a record; its methods are computations in a
    small state-and-exception monad over a [World] that holds the adapter,
    the trace of calls made into the host platform, and the scheduler's
    queue of tasks that are ready to run. *)

From Stdlib Require Import ZArith String Ascii List Bool Lia SpecFloat.
From stdpp Require Import base option gmap strings.

Open Scope string_scope.
Open Scope Z_scope.
Open Scope list_scope.

(* ===================================================================== *)
(** ** External enumerations *)
(* ===================================================================== *)

(** [pyworxcloud.utils.DeviceCapability]: the capability flags that
    [check_features] asks about. *)
Module DeviceCapability.
Inductive t :=
| EDGE_CUT
| ONE_TIME_SCHEDULE
| PARTY_MODE
| TORQUE.
End DeviceCapability.

(** [pyworxcloud.events.LandroidEvent]: the events a callback can be
    registered for. *)
Module LandroidEvent.
Inductive t :=
| DATA_RECEIVED
| MQTT_RATELIMIT
| MQTT_PUBLISH
| LOG.
End LandroidEvent.

(** [utils.logger.LoggerType], as far as the adapter uses it. *)
Module LoggerType.
Inductive t :=
| API
| DATA_UPDATE
| FEATURE_ASSESSMENT.
End LoggerType.

(** The two logger objects [check_features] writes to: the adapter's own
    [self.logger], and the local one it creates at debug level. *)
Inductive Logger :=
| SelfLogger
| DebugLogger.

Inductive LogArg :=
| AInt (z : Z)
| AStr (s : string).

(** A Python callable, known by name.  Function objects are truthy, so the
    test [if callback_func:] separates [None] from a supplied function. *)
Inductive Callable :=
| Func (qualname : string).

(** The host's event loop object, known by identity. *)
Inductive EventLoop :=
| Loop (id : nat).

(** Modelled from the spec: [const.py], which declares
    [LandroidFeatureSupport], is not among the sources.  The spec says the
    mask has one pre-assigned bit per optional feature (mower, button, lock,
    config, restart, select, set-zone, schedules, party-mode, OTS, edge-cut,
    torque); the values themselves are left open, so the enumeration is a
    record of integers and every statement below is made for an arbitrary
    assignment. *)
Module LandroidFeatureSupport.
Record t := {
  MOWER : Z;
  BUTTON : Z;
  LOCK : Z;
  CONFIG : Z;
  RESTART : Z;
  SELECT : Z;
  SETZONE : Z;
  SCHEDULES : Z;
  PARTYMODE : Z;
  OTS : Z;
  EDGECUT : Z;
  TORQUE : Z
}.
End LandroidFeatureSupport.

(** Modelled from the spec: one bit per feature, in the order in which the
    spec lists the features.  Used for concrete runs only. *)
Definition spec_feature_bits : LandroidFeatureSupport.t :=
  {| LandroidFeatureSupport.MOWER := 1;
     LandroidFeatureSupport.BUTTON := 2;
     LandroidFeatureSupport.LOCK := 4;
     LandroidFeatureSupport.CONFIG := 8;
     LandroidFeatureSupport.RESTART := 16;
     LandroidFeatureSupport.SELECT := 32;
     LandroidFeatureSupport.SETZONE := 64;
     LandroidFeatureSupport.SCHEDULES := 128;
     LandroidFeatureSupport.PARTYMODE := 256;
     LandroidFeatureSupport.OTS := 512;
     LandroidFeatureSupport.EDGECUT := 1024;
     LandroidFeatureSupport.TORQUE := 2048 |}.

(* ===================================================================== *)
(** ** The device handle (owned by the cloud client) *)
(* ===================================================================== *)

(** [pyworxcloud.utils.Capability]: a [ready] flag and a [check]
    predicate.  The adapter only reads it. *)
Record Capability := {
  ready : bool;
  check : DeviceCapability.t -> bool
}.

Record MqttTransport := {
  eventloop : option EventLoop
}.

Record DeviceHandler := {
  online : bool;
  capabilities : Capability;
  mqtt : MqttTransport
}.

(** [mqtt.set_eventloop(loop)], seen from the device handle. *)
Definition set_eventloop (l : EventLoop) (d : DeviceHandler) : DeviceHandler :=
  {| online := online d;
     capabilities := capabilities d;
     mqtt := {| eventloop := Some l |} |}.

(* ===================================================================== *)
(** ** The adapter object *)
(* ===================================================================== *)

Module LandroidAPI.

(** The attributes [__init__] creates.  [hass_loop] stands for
    [self.hass.loop]; [callbacks] is the table that
    [self.cloud.set_callback] fills. *)
Record t := {
  hass_loop : EventLoop;
  entry_id : string;
  unique_id : option string;
  device : DeviceHandler;
  callbacks : list (LandroidEvent.t * Callable);
  services : gmap string Callable;
  shared_options : gmap string string;
  device_id : option Z;
  features : Z;
  features_loaded : bool;
  _last_state : bool;
  name : string;
  friendly_name : string;
  config : gmap string string
}.

(** [self.features = v] *)
Definition with_features (v : Z) (a : t) : t :=
  {| hass_loop := hass_loop a;
     entry_id := entry_id a;
     unique_id := unique_id a;
     device := device a;
     callbacks := callbacks a;
     services := services a;
     shared_options := shared_options a;
     device_id := device_id a;
     features := v;
     features_loaded := features_loaded a;
     _last_state := _last_state a;
     name := name a;
     friendly_name := friendly_name a;
     config := config a |}.

(** [self.features_loaded = b]; no method of the class does this, the
    attribute is public and set from outside. *)
Definition with_features_loaded (b : bool) (a : t) : t :=
  {| hass_loop := hass_loop a;
     entry_id := entry_id a;
     unique_id := unique_id a;
     device := device a;
     callbacks := callbacks a;
     services := services a;
     shared_options := shared_options a;
     device_id := device_id a;
     features := features a;
     features_loaded := b;
     _last_state := _last_state a;
     name := name a;
     friendly_name := friendly_name a;
     config := config a |}.

(** The effect of a call on [self.device] (the handle is shared with the
    cloud client; the adapter keeps the reference). *)
Definition with_device (d : DeviceHandler) (a : t) : t :=
  {| hass_loop := hass_loop a;
     entry_id := entry_id a;
     unique_id := unique_id a;
     device := d;
     callbacks := callbacks a;
     services := services a;
     shared_options := shared_options a;
     device_id := device_id a;
     features := features a;
     features_loaded := features_loaded a;
     _last_state := _last_state a;
     name := name a;
     friendly_name := friendly_name a;
     config := config a |}.

End LandroidAPI.

(* ===================================================================== *)
(** ** Worlds, outcomes and the method monad *)
(* ===================================================================== *)

(** What a method does to its surroundings, in program order. *)
Inductive Event :=
| EvLog (lg : Logger) (t : LoggerType.t) (msg : string) (args : list LogArg)
| EvCallback (f : Callable) (arg : Z)
| EvDispatch (signal : string)
| EvSetEventloop (l : EventLoop)
| EvSuspend.

(** Another coroutine that is ready to run on the same loop.  It runs only
    when the running coroutine suspends. *)
Definition Task := LandroidAPI.t -> LandroidAPI.t.

Record World := {
  self : LandroidAPI.t;
  trace : list Event;
  now_calls : nat;
  pending : list Task
}.

(** The exceptions that leave the adapter's methods: the [ValueError] the
    readiness gate raises itself, with the three values its message is
    built from, and the [OverflowError] of the [datetime] module, which
    the gate's deadline raises when the timeout or the deadline is out of
    the range of [timedelta] or of [datetime]. *)
Inductive Exception :=
| ValueError (capabilities_ready features_loaded : bool) (feature_bits : Z)
| OverflowError.

Inductive outcome (A : Type) :=
| Returned (a : A)
| Raised (e : Exception)
| OutOfFuel.
Arguments Returned {A} a.
Arguments Raised {A} e.
Arguments OutOfFuel {A}.

Definition M (A : Type) : Type := World -> outcome A * World.

#[global] Instance M_ret : MRet M := fun A a w => (Returned a, w).

#[global] Instance M_bind : MBind M := fun A B k m w =>
  match m w with
  | (Returned a, w') => k a w'
  | (Raised e, w') => (Raised e, w')
  | (OutOfFuel, w') => (OutOfFuel, w')
  end.

Definition raise {A} (e : Exception) : M A := fun w => (Raised e, w).

Definition get_self : M LandroidAPI.t := fun w => (Returned (self w), w).

Definition modify_self (f : LandroidAPI.t -> LandroidAPI.t) : M unit := fun w =>
  (Returned tt,
   {| self := f (self w); trace := trace w;
      now_calls := now_calls w; pending := pending w |}).

Definition emit (e : Event) : M unit := fun w =>
  (Returned tt,
   {| self := self w; trace := trace w ++ [e];
      now_calls := now_calls w; pending := pending w |}).

(** A suspension point of a coroutine ([await asyncio.sleep(0)] and the
    like): the tasks that are ready run, in order, before control comes
    back. *)
Definition suspend : M unit := fun w =>
  (Returned tt,
   {| self := fold_left (fun a (task : Task) => task a) (pending w) (self w);
      trace := trace w ++ [EvSuspend];
      now_calls := now_calls w;
      pending := [] |}).

Definition log (lg : Logger) (t : LoggerType.t) (msg : string) (args : list LogArg)
  : M unit :=
  emit (EvLog lg t msg args).

(* ===================================================================== *)
(** ** [LandroidAPI.check_features] *)
(* ===================================================================== *)

Section FeatureResolver.

Variable LFS : LandroidFeatureSupport.t.

Definition check_features (features : Z) (callback_func : option Callable)
  : M unit :=
  log DebugLogger LoggerType.FEATURE_ASSESSMENT "Features: %s" [AInt features];;
  this ← get_self;
  let capabilities := capabilities (LandroidAPI.device this) in
  features ←
    (if check capabilities DeviceCapability.PARTY_MODE then
       log SelfLogger LoggerType.FEATURE_ASSESSMENT "Party mode capable" [];;
       mret (Z.lor features (LandroidFeatureSupport.PARTYMODE LFS))
     else mret features);
  features ←
    (if check capabilities DeviceCapability.ONE_TIME_SCHEDULE then
       log SelfLogger LoggerType.FEATURE_ASSESSMENT "OTS capable" [];;
       mret (Z.lor features (LandroidFeatureSupport.OTS LFS))
     else mret features);
  features ←
    (if check capabilities DeviceCapability.EDGE_CUT then
       log SelfLogger LoggerType.FEATURE_ASSESSMENT "Edge Cut capable" [];;
       mret (Z.lor features (LandroidFeatureSupport.EDGECUT LFS))
     else mret features);
  features ←
    (if check capabilities DeviceCapability.TORQUE then
       log SelfLogger LoggerType.FEATURE_ASSESSMENT "Torque capable" [];;
       mret (Z.lor features (LandroidFeatureSupport.TORQUE LFS))
     else mret features);
  log DebugLogger LoggerType.FEATURE_ASSESSMENT "Features: %s" [AInt features];;
  this ← get_self;
  let old_feature := LandroidAPI.features this in
  modify_self (LandroidAPI.with_features features);;
  match callback_func with
  | Some f => emit (EvCallback f old_feature)
  | None => mret tt
  end.

End FeatureResolver.

(* ===================================================================== *)
(** ** [homeassistant.util.slugify] on ASCII text *)
(* ===================================================================== *)

Definition is_digit (c : ascii) : bool :=
  let n := nat_of_ascii c in (48 <=? n)%nat && (n <=? 57)%nat.

Definition is_upper (c : ascii) : bool :=
  let n := nat_of_ascii c in (65 <=? n)%nat && (n <=? 90)%nat.

Definition is_lower (c : ascii) : bool :=
  let n := nat_of_ascii c in (97 <=? n)%nat && (n <=? 122)%nat.

Definition is_alnum (c : ascii) : bool :=
  is_digit c || is_upper c || is_lower c.

Definition to_lower (c : ascii) : ascii :=
  if is_upper c then ascii_of_nat (nat_of_ascii c + 32) else c.

(** [str.lower()] *)
Fixpoint lower (s : string) : string :=
  match s with
  | EmptyString => EmptyString
  | String c rest => String (to_lower c) (lower rest)
  end.

Definition starts_with_digit (s : string) : bool :=
  match s with
  | EmptyString => false
  | String c _ => is_digit c
  end.

(** python-slugify's number clean-up: a comma that stands between two
    digits is removed.  [prev_digit] says whether the character before the
    current one, in the text as given, is a digit. *)
Fixpoint cleanup_numbers (prev_digit : bool) (s : string) : string :=
  match s with
  | EmptyString => EmptyString
  | String c rest =>
      if Ascii.eqb c "," && prev_digit && starts_with_digit rest
      then cleanup_numbers false rest
      else String c (cleanup_numbers (is_digit c) rest)
  end.

Inductive SlugState :=
| AtStart
| InWord
| AfterGap.

(** The remaining passes of python-slugify, fused: every maximal run of
    characters other than letters and digits becomes one separator, runs at
    either end are stripped, letters come out in lower case, and the
    separator is the ["_"] that Home Assistant asks for. *)
Fixpoint slug_runs (st : SlugState) (s : string) : string :=
  match s with
  | EmptyString => EmptyString
  | String c rest =>
      if is_alnum c then
        match st with
        | AfterGap => String "_" (String (to_lower c) (slug_runs InWord rest))
        | _ => String (to_lower c) (slug_runs InWord rest)
        end
      else
        match st with
        | AtStart => slug_runs AtStart rest
        | _ => slug_runs AfterGap rest
        end
  end.

(** Modelled from the spec: [homeassistant.util.slugify] belongs to the
    host platform and is not among the sources; the spec calls it a
    deterministic, case-normalising slugification.  This is the host's
    function ([slugify.slugify(text, separator="_")], with [""] for empty
    input and ["unknown"] for an empty slug) on ASCII text that holds no
    HTML character reference; transliteration of other alphabets and the
    decoding of [&name;] references are left out. *)
Definition util_slugify (text : string) : string :=
  if String.eqb text "" then ""
  else
    let slug := slug_runs AtStart (cleanup_numbers false text) in
    if String.eqb slug "" then "unknown" else slug.

(* ===================================================================== *)
(** ** [LandroidAPI.__init__] *)
(* ===================================================================== *)

#[global] Instance LandroidEvent_eq_dec : EqDecision LandroidEvent.t.
Proof. solve_decision. Defined.

Module WorxCloud.
Record t := {
  devices : gmap string DeviceHandler;
  callbacks : list (LandroidEvent.t * Callable)
}.
End WorxCloud.

(** [cloud.set_callback(event, func)]: one handler per event, the last
    registration wins. *)
Definition set_callback (ev : LandroidEvent.t) (f : Callable)
    (cbs : list (LandroidEvent.t * Callable)) : list (LandroidEvent.t * Callable) :=
  List.filter (fun p => negb (bool_decide (fst p = ev))) cbs ++ [(ev, f)].

Module ConfigEntry.
Record t := {
  entry_id : string;
  unique_id : option string
}.
End ConfigEntry.

(** [hass.data[DOMAIN][entry.entry_id]]: what the integration's setup has
    stored for a config entry. *)
Module EntryData.
Record t := {
  ATTR_CLOUD : WorxCloud.t;
  CONF_EMAIL : string;
  CONF_PASSWORD : string;
  CONF_TYPE : string
}.
End EntryData.

Module HomeAssistant.
Record t := {
  loop : EventLoop;
  data : gmap string EntryData.t
}.
End HomeAssistant.

(** The constructor.  A missing entry or a missing device is a [KeyError]
    in the source; here no adapter is built. *)
Definition init (hass : HomeAssistant.t) (device_name : string)
    (entry : ConfigEntry.t) : option LandroidAPI.t :=
  stored ← HomeAssistant.data hass !! ConfigEntry.entry_id entry;
  let cloud := EntryData.ATTR_CLOUD stored in
  device ← WorxCloud.devices cloud !! device_name;
  Some
    {| LandroidAPI.hass_loop := HomeAssistant.loop hass;
       LandroidAPI.entry_id := ConfigEntry.entry_id entry;
       LandroidAPI.unique_id := ConfigEntry.unique_id entry;
       LandroidAPI.device := device;
       LandroidAPI.callbacks :=
         set_callback LandroidEvent.LOG (Func "LandroidAPI._on_log")
           (set_callback LandroidEvent.MQTT_PUBLISH (Func "LandroidAPI._on_mqtt_publish")
              (set_callback LandroidEvent.MQTT_RATELIMIT (Func "LandroidAPI._on_ratelimit")
                 (set_callback LandroidEvent.DATA_RECEIVED (Func "LandroidAPI.receive_data")
                    (WorxCloud.callbacks cloud))));
       LandroidAPI.services := ∅;
       LandroidAPI.shared_options := ∅;
       LandroidAPI.device_id := None;
       LandroidAPI.features := 0;
       LandroidAPI.features_loaded := false;
       LandroidAPI._last_state := online device;
       LandroidAPI.name := util_slugify device_name;
       LandroidAPI.friendly_name := device_name;
       LandroidAPI.config :=
         <["type" := lower (EntryData.CONF_TYPE stored)]>
           (<["password" := EntryData.CONF_PASSWORD stored]>
              (<["email" := lower (EntryData.CONF_EMAIL stored)]> ∅)) |}.

(* ===================================================================== *)
(** ** [LandroidAPI.async_await_features] *)
(* ===================================================================== *)

(** [datetime.max], 9999-12-31 23:59:59.999999, in microseconds since
    [datetime.min]: the last microsecond of the day with ordinal 3652059. *)
Definition DATETIME_MAX : Z := 3652059 * 86400 * 1000000 - 1.

(** The largest number of days a [timedelta] holds, in either direction. *)
Definition MAX_DELTA_DAYS : Z := 999999999.

Section ReadinessGate.

(** The wall clock: [clock k] is what the [k]-th call of
    [datetime.now()] returns, as the number of microseconds since
    [datetime.min], 0001-01-01 00:00:00.  The readings of a real clock lie
    between 0 and [DATETIME_MAX]; they need not increase. *)
Variable clock : nat -> Z.

Definition now : M Z := fun w =>
  (Returned (clock (now_calls w)),
   {| self := self w; trace := trace w;
      now_calls := S (now_calls w); pending := pending w |}).

(** [timedelta(seconds=s)] for an integer [s], in microseconds.  The
    seconds are normalised to days and a rest, the days being
    [s // 86400]; [None] is the [OverflowError] raised for more than
    [MAX_DELTA_DAYS] days either way. *)
Definition timedelta_seconds (s : Z) : option Z :=
  let days := s / 86400 in
  if (- MAX_DELTA_DAYS <=? days) && (days <=? MAX_DELTA_DAYS)
  then Some (1000000 * s)
  else None.

(** [t + delta] for a [datetime] [t] and a [timedelta] [delta]: [None] is
    the [OverflowError] raised when the sum is before [datetime.min] or
    after [datetime.max]. *)
Definition datetime_add (t delta : Z) : option Z :=
  if (0 <=? t + delta) && (t + delta <=? DATETIME_MAX)
  then Some (t + delta)
  else None.

(** A result of the [datetime] module, or its [OverflowError]. *)
Definition or_overflow {A} (x : option A) : M A :=
  match x with
  | Some a => mret a
  | None => raise OverflowError
  end.

Definition out_of_fuel {A} : M A := fun w => (OutOfFuel, w).

(** The [while not self.features_loaded] loop.  Its body reads the clock
    and nothing else; it has no [await], so it is one uninterrupted run
    on the event loop.  [fuel] bounds the number of iterations. *)
Fixpoint wait_loop (fuel : nat) (timeout_at : Z) : M unit :=
  this ← get_self;
  if negb (LandroidAPI.features_loaded this) then
    match fuel with
    | O => out_of_fuel
    | S fuel' =>
        t ← now;
        if t >? timeout_at then mret tt
        else wait_loop fuel' timeout_at
    end
  else mret tt.

(** In [datetime.now() + timedelta(seconds=timeout)] the clock is read
    first; then the [timedelta] is built, then the sum: either can raise
    [OverflowError], which nothing in the method catches. *)
Definition async_await_features (fuel : nat) (timeout : Z) : M unit :=
  t0 ← now;
  delta ← or_overflow (timedelta_seconds timeout);
  timeout_at ← or_overflow (datetime_add t0 delta);
  wait_loop fuel timeout_at;;
  this ← get_self;
  let capabilities := capabilities (LandroidAPI.device this) in
  if negb (ready capabilities)
     || negb (LandroidAPI.features_loaded this)
     || Z.eqb (LandroidAPI.features this) 0
  then
    raise (ValueError (ready capabilities)
                      (LandroidAPI.features_loaded this)
                      (LandroidAPI.features this))
  else
    emit (EvSetEventloop (LandroidAPI.hass_loop this));;
    modify_self
      (fun a => LandroidAPI.with_device
                  (set_eventloop (LandroidAPI.hass_loop a) (LandroidAPI.device a)) a).

End ReadinessGate.

(* ===================================================================== *)
(** ** [LandroidAPI.receive_data] *)
(* ===================================================================== *)

Section Republisher.

(** Modelled from the spec: [UPDATE_SIGNAL] is declared in [const.py],
    which is not among the sources; the spec calls it the fixed
    update-signal prefix. *)
Variable UPDATE_SIGNAL : string.

Definition receive_data (name : string) (device : DeviceHandler) : M unit :=
  log SelfLogger LoggerType.DATA_UPDATE
      "Received new data from API to %s, dispatching %s"
      [AStr name; AStr (util_slugify (UPDATE_SIGNAL +:+ "_" +:+ name))];;
  emit (EvDispatch (util_slugify (UPDATE_SIGNAL +:+ "_" +:+ name))).

End Republisher.

(* ===================================================================== *)
(** ** [devices/landxcape.py]: the configuration scheme *)
(* ===================================================================== *)

(** The values a service call can carry, as far as the scheme tells them
    apart: [None], a [bool], an [int], a [float], a [str].  A float is a
    [spec_float] of the Standard Library: a signed zero, a signed
    infinity, nan, or the number [m * 2^e] with its sign; every value of a
    Python float is one of these.  A string holds one [ascii] for each
    character; the conversion to [int] is modelled for ASCII strings, see
    [int_of_str]. *)
Inductive PyValue :=
| PyNone
| PyBool (b : bool)
| PyInt (z : Z)
| PyFloat (f : spec_float)
| PyStr (s : string).

(** [isinstance(v, int)]; [bool] is a subclass of [int]. *)
Definition is_int (v : PyValue) : bool :=
  match v with
  | PyInt _ | PyBool _ => true
  | _ => false
  end.

(** [s.isascii()] *)
Definition isascii (s : string) : bool :=
  forallb (fun c => (nat_of_ascii c <? 128)%nat) (list_ascii_of_string s).

(** Whitespace that [int] strips from an ASCII string: space, tab,
    newline, vertical tab, form feed and carriage return. *)
Definition is_space (c : ascii) : bool :=
  let n := nat_of_ascii c in
  (n =? 32)%nat || ((9 <=? n)%nat && (n <=? 13)%nat).

Fixpoint lstrip (s : string) : string :=
  match s with
  | EmptyString => EmptyString
  | String c rest => if is_space c then lstrip rest else s
  end.

Definition rstrip (s : string) : string :=
  string_of_list_ascii (List.rev (list_ascii_of_string
    (lstrip (string_of_list_ascii (List.rev (list_ascii_of_string s)))))).

Definition digit_value (c : ascii) : Z := Z.of_nat (nat_of_ascii c - 48).

(** [sys.get_int_max_str_digits()], as the interpreter starts with: a
    decimal text of more digits is not converted. *)
Definition INT_MAX_STR_DIGITS : nat := 4300.

(** Decimal digits, with single underscores allowed between digits.
    [digits] counts the digits read so far, leading zeros included and
    underscores left out; more than [INT_MAX_STR_DIGITS] of them are
    refused. *)
Fixpoint parse_digits (acc : Z) (digits : nat) (prev_digit : bool) (s : string)
  : option Z :=
  match s with
  | EmptyString =>
      if prev_digit && (digits <=? INT_MAX_STR_DIGITS)%nat then Some acc else None
  | String c rest =>
      if is_digit c then parse_digits (10 * acc + digit_value c) (S digits) true rest
      else if Ascii.eqb c "_" && prev_digit then parse_digits acc digits false rest
      else None
  end.

(** [int(s)] for an ASCII string [s]: [None] is [ValueError].  (In a
    string that is not ASCII, [int] also takes the digits and the blanks
    of other scripts; the statements about strings are for strings with
    [isascii].) *)
Definition int_of_str (s : string) : option Z :=
  match rstrip (lstrip s) with
  | String "-" body => Z.opp <$> parse_digits 0 0 false body
  | String "+" body => parse_digits 0 0 false body
  | body => parse_digits 0 0 false body
  end.

(** The exceptions of the built-in conversions. *)
Inductive PyRaise :=
| PyTypeError
| PyValueError
| PyOverflowError.

(** [int(f)] for a float: the integral part, cut off towards zero;
    [ValueError] for nan, [OverflowError] for an infinity. *)
Definition int_of_float (f : spec_float) : Z + PyRaise :=
  match f with
  | S754_zero _ => inl 0
  | S754_infinity _ => inr PyOverflowError
  | S754_nan => inr PyValueError
  | S754_finite s m e =>
      let magnitude := Z.shiftl (Z.pos m) e in
      inl (if s then - magnitude else magnitude)
  end.

(** [int(v)], with the exception it raises where it has no value. *)
Definition int_call (v : PyValue) : Z + PyRaise :=
  match v with
  | PyNone => inr PyTypeError
  | PyBool b => inl (if b then 1 else 0)
  | PyInt z => inl z
  | PyFloat f => int_of_float f
  | PyStr s =>
      match int_of_str s with
      | Some z => inl z
      | None => inr PyValueError
      end
  end.

(** The value of [int(v)]: [None] is [TypeError], [ValueError] or
    [OverflowError]. *)
Definition py_int (v : PyValue) : option Z :=
  match int_call v with
  | inl z => Some z
  | inr _ => None
  end.

(** The order of a float and an integer, as Python compares them: by
    their exact values; nan is not ordered. *)
Definition float_compare (f : spec_float) (z : Z) : option comparison :=
  match f with
  | S754_zero _ => Some (0 ?= z)
  | S754_infinity s => Some (if s then Lt else Gt)
  | S754_nan => None
  | S754_finite s m e =>
      let n := if s then Z.neg m else Z.pos m in
      Some (if 0 <=? e then n * 2 ^ e ?= z else n ?= z * 2 ^ (- e))
  end.

(** [f >= z] *)
Definition float_geb (f : spec_float) (z : Z) : bool :=
  match float_compare f z with
  | Some Gt | Some Eq => true
  | _ => false
  end.

(** [f <= z] *)
Definition float_leb (f : spec_float) (z : Z) : bool :=
  match float_compare f z with
  | Some Lt | Some Eq => true
  | _ => false
  end.

Inductive Invalid :=
| CoerceInvalid (msg : string)
| RangeInvalid (msg : string) (bound : option Z)
| TypeInvalid (msg : string).

(** What a validator does with a value: it returns a value, it raises an
    [Invalid], or it lets through an exception that is no [Invalid],
    which then leaves the scheme's call as it is. *)
Inductive validation :=
| Valid (v : PyValue)
| Rejected (e : Invalid)
| Uncaught (e : PyRaise).

Abbreviation Validator := (PyValue -> validation).

(** [vol.Coerce(int)]: [int(v)], with [ValueError] and [TypeError] turned
    into [CoerceInvalid]; the [OverflowError] of an infinite float is not
    among the exceptions it catches. *)
Definition Coerce_int : Validator := fun v =>
  match int_call v with
  | inl n => Valid (PyInt n)
  | inr PyOverflowError => Uncaught PyOverflowError
  | inr _ => Rejected (CoerceInvalid "expected int")
  end.

(** [vol.Range(min, max)], both bounds included: [not v >= min] and
    [not v <= max] are the two tests, so that nan fails the first.
    Comparing a string or [None] with a number is a [TypeError], which
    [Range] turns into its own error. *)
Definition Range (min max : Z) : Validator := fun v =>
  match v with
  | PyInt _ | PyBool _ =>
      let n := default 0 (py_int v) in
      if negb (n >=? min) then Rejected (RangeInvalid "value must be at least %s" (Some min))
      else if negb (n <=? max) then Rejected (RangeInvalid "value must be at most %s" (Some max))
      else Valid v
  | PyFloat f =>
      if negb (float_geb f min)
      then Rejected (RangeInvalid "value must be at least %s" (Some min))
      else if negb (float_leb f max)
      then Rejected (RangeInvalid "value must be at most %s" (Some max))
      else Valid v
  | PyNone | PyStr _ =>
      Rejected (RangeInvalid "invalid value or type (must have a partial ordering)" None)
  end.

(** [vol.All(v1, v2, ...)]: each validator works on the output of the one
    before it. *)
Fixpoint All (validators : list Validator) : Validator := fun v =>
  match validators with
  | [] => Valid v
  | validator :: rest =>
      match validator v with
      | Valid v' => All rest v'
      | Rejected e => Rejected e
      | Uncaught e => Uncaught e
      end
  end.

(** The type [str] used as a validator. *)
Definition str : Validator := fun v =>
  match v with
  | PyStr _ => Valid v
  | _ => Rejected (TypeInvalid "expected str")
  end.

(** One entry of the data against a scheme whose keys are all
    [vol.Optional]: a key the scheme does not list is refused ("extra keys
    not allowed"). *)
Definition validate_item (scheme : gmap string Validator) (k : string) (v : PyValue)
  : option PyValue :=
  match scheme !! k with
  | Some validator =>
      match validator v with
      | Valid v' => Some v'
      | Rejected _ | Uncaught _ => None
      end
  | None => None
  end.

(** [vol.Schema({...})(data)]: the validated data, or [None] where the
    call raises: [MultipleInvalid] for the entries that are refused, or
    the exception that a validator has let through. *)
Definition Schema (scheme : gmap string Validator) (data : gmap string PyValue)
  : option (gmap string PyValue) :=
  if decide (map_Forall (fun k v => is_Some (validate_item scheme k v)) data)
  then Some (map_imap (validate_item scheme) data)
  else None.

Section Landxcape.

(** Modelled from the spec: the attribute names are declared in
    [const.py], which is not among the sources. *)
Variables ATTR_RAINDELAY ATTR_TIMEEXTENSION
          ATTR_MULTIZONE_DISTANCES ATTR_MULTIZONE_PROBABILITIES : string.

(** The dict literal of the scheme, keys in source order (a repeated key
    would keep the later entry). *)
Definition CONFIG_SCHEME_dict : gmap string Validator :=
  <[ATTR_MULTIZONE_PROBABILITIES := str]>
    (<[ATTR_MULTIZONE_DISTANCES := str]>
       (<[ATTR_TIMEEXTENSION := All [Coerce_int; Range (-100) 100]]>
          (<[ATTR_RAINDELAY := All [Coerce_int; Range 0 300]]> ∅))).

Definition CONFIG_SCHEME : gmap string PyValue -> option (gmap string PyValue) :=
  Schema CONFIG_SCHEME_dict.

Variable LFS : LandroidFeatureSupport.t.

Definition DEVICE_FEATURES : Z :=
  Z.lor (Z.lor (Z.lor (Z.lor (Z.lor (Z.lor (Z.lor
    (LandroidFeatureSupport.MOWER LFS)
    (LandroidFeatureSupport.BUTTON LFS))
    (LandroidFeatureSupport.LOCK LFS))
    (LandroidFeatureSupport.CONFIG LFS))
    (LandroidFeatureSupport.RESTART LFS))
    (LandroidFeatureSupport.SELECT LFS))
    (LandroidFeatureSupport.SETZONE LFS))
    (LandroidFeatureSupport.SCHEDULES LFS).

End Landxcape.

(* ===================================================================== *)
(** ** Vocabulary of the statements *)
(* ===================================================================== *)

(** The bits that belong to the capability checks that answer true. *)
Definition true_check_bits (LFS : LandroidFeatureSupport.t) (caps : Capability) : Z :=
  Z.lor
    (Z.lor
       (Z.lor
          (if check caps DeviceCapability.PARTY_MODE
           then LandroidFeatureSupport.PARTYMODE LFS else 0)
          (if check caps DeviceCapability.ONE_TIME_SCHEDULE
           then LandroidFeatureSupport.OTS LFS else 0))
       (if check caps DeviceCapability.EDGE_CUT
        then LandroidFeatureSupport.EDGECUT LFS else 0))
    (if check caps DeviceCapability.TORQUE
     then LandroidFeatureSupport.TORQUE LFS else 0).

(** The log lines [check_features] writes for an input mask. *)
Definition feature_log (LFS : LandroidFeatureSupport.t) (caps : Capability)
    (features : Z) : list Event :=
  [EvLog DebugLogger LoggerType.FEATURE_ASSESSMENT "Features: %s" [AInt features]]
  ++ (if check caps DeviceCapability.PARTY_MODE
      then [EvLog SelfLogger LoggerType.FEATURE_ASSESSMENT "Party mode capable" []]
      else [])
  ++ (if check caps DeviceCapability.ONE_TIME_SCHEDULE
      then [EvLog SelfLogger LoggerType.FEATURE_ASSESSMENT "OTS capable" []]
      else [])
  ++ (if check caps DeviceCapability.EDGE_CUT
      then [EvLog SelfLogger LoggerType.FEATURE_ASSESSMENT "Edge Cut capable" []]
      else [])
  ++ (if check caps DeviceCapability.TORQUE
      then [EvLog SelfLogger LoggerType.FEATURE_ASSESSMENT "Torque capable" []]
      else [])
  ++ [EvLog DebugLogger LoggerType.FEATURE_ASSESSMENT "Features: %s"
        [AInt (Z.lor features (true_check_bits LFS caps))]].

(** The callback invocations recorded in a trace, in order. *)
Fixpoint callback_calls (tr : list Event) : list (Callable * Z) :=
  match tr with
  | [] => []
  | EvCallback f arg :: rest => (f, arg) :: callback_calls rest
  | _ :: rest => callback_calls rest
  end.

(** The signals sent on the host's dispatcher, in order. *)
Fixpoint dispatched (tr : list Event) : list string :=
  match tr with
  | [] => []
  | EvDispatch signal :: rest => signal :: dispatched rest
  | _ :: rest => dispatched rest
  end.

(** How often the running coroutine gave up control. *)
Fixpoint suspensions (tr : list Event) : nat :=
  match tr with
  | [] => O
  | EvSuspend :: rest => S (suspensions rest)
  | _ :: rest => suspensions rest
  end.

Definition set_self (a : LandroidAPI.t) (w : World) : World :=
  {| self := a; trace := trace w; now_calls := now_calls w; pending := pending w |}.

Definition set_now_calls (n : nat) (w : World) : World :=
  {| self := self w; trace := trace w; now_calls := n; pending := pending w |}.

(** A world in which nothing has happened yet. *)
Definition fresh (a : LandroidAPI.t) : World :=
  {| self := a; trace := []; now_calls := O; pending := [] |}.

(** *** A concrete installation, for runs *)

Definition all_capabilities (is_ready : bool) : Capability :=
  {| ready := is_ready; check := fun _ => true |}.

Definition no_capabilities (is_ready : bool) : Capability :=
  {| ready := is_ready; check := fun _ => false |}.

Definition mower (caps : Capability) : DeviceHandler :=
  {| online := true; capabilities := caps; mqtt := {| eventloop := None |} |}.

Definition example_entry : ConfigEntry.t :=
  {| ConfigEntry.entry_id := "entry-1"; ConfigEntry.unique_id := Some "account-1" |}.

Definition example_hass (caps : Capability) : HomeAssistant.t :=
  {| HomeAssistant.loop := Loop 1;
     HomeAssistant.data :=
       {[ "entry-1" :=
            {| EntryData.ATTR_CLOUD :=
                 {| WorxCloud.devices := {[ "My Mower 1" := mower caps ]};
                    WorxCloud.callbacks := [] |};
               EntryData.CONF_EMAIL := "Owner@Example.org";
               EntryData.CONF_PASSWORD := "secret";
               EntryData.CONF_TYPE := "Landxcape" |} ]} |}.

(** The adapter as [__init__] leaves it, for the device ["My Mower 1"]. *)
Definition example_api (caps : Capability) : LandroidAPI.t :=
  default
    {| LandroidAPI.hass_loop := Loop 0; LandroidAPI.entry_id := "";
       LandroidAPI.unique_id := None; LandroidAPI.device := mower caps;
       LandroidAPI.callbacks := []; LandroidAPI.services := ∅;
       LandroidAPI.shared_options := ∅; LandroidAPI.device_id := None;
       LandroidAPI.features := 0; LandroidAPI.features_loaded := false;
       LandroidAPI._last_state := false; LandroidAPI.name := "";
       LandroidAPI.friendly_name := ""; LandroidAPI.config := ∅ |}
    (init (example_hass caps) "My Mower 1" example_entry).

(** A clock that advances by one second between two readings. *)
Definition second_clock (k : nat) : Z := 1000000 * Z.of_nat k.

(** A clock that stands still. *)
Definition frozen_clock (k : nat) : Z := 0.

(** The adapter of the example after the resolver has run on the device
    features of the model, with another task ready on the loop that would
    set the features-loaded flag as soon as it got to run. *)
Definition waiting_world : World :=
  {| self :=
       self (snd (check_features spec_feature_bits
                    (DEVICE_FEATURES spec_feature_bits) None
                    (fresh (example_api (no_capabilities true)))));
     trace := [];
     now_calls := O;
     pending := [LandroidAPI.with_features_loaded true] |}.

(** What [async_await_features] does once its loop is over: the three
    checks, then the error or the call of [set_eventloop]. *)
Definition after_wait (w : World) : outcome unit * World :=
  let this := self w in
  let caps := capabilities (LandroidAPI.device this) in
  if negb (ready caps)
     || negb (LandroidAPI.features_loaded this)
     || (LandroidAPI.features this =? 0)
  then
    (Raised (ValueError (ready caps)
                        (LandroidAPI.features_loaded this)
                        (LandroidAPI.features this)), w)
  else
    (Returned tt,
     {| self := LandroidAPI.with_device
                  (set_eventloop (LandroidAPI.hass_loop this) (LandroidAPI.device this))
                  this;
        trace := trace w ++ [EvSetEventloop (LandroidAPI.hass_loop this)];
        now_calls := now_calls w;
        pending := pending w |}).

(** The deadline of a call of [async_await_features] that reads the time
    [t0] and has the timeout [timeout]: [None] where line 95 raises
    [OverflowError]. *)
Definition deadline (t0 timeout : Z) : option Z :=
  match timedelta_seconds timeout with
  | Some delta => datetime_add t0 delta
  | None => None
  end.

(** What [async_await_features] does once it has its deadline: the loop,
    then the checks. *)
Definition after_deadline (clock : nat -> Z) (fuel : nat) (timeout_at : Z)
    (w : World) : outcome unit * World :=
  match wait_loop clock fuel timeout_at (set_now_calls (S (now_calls w)) w) with
  | (Returned _, w2) => after_wait w2
  | (Raised e, w2) => (Raised e, w2)
  | (OutOfFuel, w2) => (OutOfFuel, w2)
  end.

(** The characters a slug is made of: lower-case letters, digits and the
    separator. *)
Definition slug_char (c : ascii) : bool :=
  is_lower c || is_digit c || Ascii.eqb c "_".

(** Whether a validator lets a value through. *)
Definition accepts (validator : Validator) (v : PyValue) : bool :=
  match validator v with
  | Valid _ => true
  | Rejected _ | Uncaught _ => false
  end.

#[global] Instance DeviceCapability_eq_dec : EqDecision DeviceCapability.t.
Proof. solve_decision. Defined.

(** The feature bit that [check_features] sets for a capability: the
    pairing that its four [if] statements hard-wire. *)
Definition capability_bit (LFS : LandroidFeatureSupport.t)
    (c : DeviceCapability.t) : Z :=
  match c with
  | DeviceCapability.PARTY_MODE => LandroidFeatureSupport.PARTYMODE LFS
  | DeviceCapability.ONE_TIME_SCHEDULE => LandroidFeatureSupport.OTS LFS
  | DeviceCapability.EDGE_CUT => LandroidFeatureSupport.EDGECUT LFS
  | DeviceCapability.TORQUE => LandroidFeatureSupport.TORQUE LFS
  end.

(** A call of one of the adapter's methods by its surroundings.  An
    exception that a call raises is the caller's to handle; the adapter
    lives on in the state the call left. *)
Inductive MethodCall :=
| CallCheckFeatures (features : Z) (callback_func : option Callable)
| CallReceiveData (name : string) (device : DeviceHandler)
| CallAwaitFeatures (fuel : nat) (timeout : Z).

Definition call_method (LFS : LandroidFeatureSupport.t) (UPDATE_SIGNAL : string)
    (clock : nat -> Z) (m : MethodCall) (w : World) : World :=
  match m with
  | CallCheckFeatures features callback_func =>
      snd (check_features LFS features callback_func w)
  | CallReceiveData name device =>
      snd (receive_data UPDATE_SIGNAL name device w)
  | CallAwaitFeatures fuel timeout =>
      snd (async_await_features clock fuel timeout w)
  end.

Definition call_methods (LFS : LandroidFeatureSupport.t) (UPDATE_SIGNAL : string)
    (clock : nat -> Z) (ms : list MethodCall) (w : World) : World :=
  fold_left (fun w' m => call_method LFS UPDATE_SIGNAL clock m w') ms w.

(** Whether a call came back normally. *)
Definition returned {A : Type} (o : outcome A) : bool :=
  match o with
  | Returned _ => true
  | _ => false
  end.

(** Whether a text holds a letter or a digit. *)
Definition has_alnum (s : string) : bool :=
  existsb is_alnum (list_ascii_of_string s).

(** A text that [slugify] takes as it stands: ASCII, so that nothing is
    transliterated, and without [&], so that it holds no character
    reference ([&amp;], [&#38;], [&#x26;]) to decode. *)
Definition plain_text (s : string) : bool :=
  isascii s && negb (existsb (Ascii.eqb "&") (list_ascii_of_string s)).

(** [int(v)] when it succeeds and lands in [lo, hi]. *)
Definition coerced_in (lo hi : Z) (v : PyValue) : option PyValue :=
  match py_int v with
  | Some n => if (lo <=? n) && (n <=? hi) then Some (PyInt n) else None
  | None => None
  end.

(** A value whose text, when it is a string, is ASCII. *)
Definition ascii_value (v : PyValue) : bool :=
  match v with
  | PyStr s => isascii s
  | _ => true
  end.

(** Service data whose strings are all ASCII. *)
Definition ascii_data (data : gmap string PyValue) : bool :=
  bool_decide (map_Forall (fun _ v => ascii_value v = true) data).

(** The float nearest to 300.9: 5293488780764774 * 2^-44. *)
Definition float_300_9 : spec_float := S754_finite false 5293488780764774 (-44).

(** The value itself when it is a string. *)
Definition only_str (v : PyValue) : option PyValue :=
  match v with
  | PyStr _ => Some v
  | _ => None
  end.

(** *** The one-time-schedule scheme of [devices/landxcape.py] *)

(** The type [bool] used as a validator: [isinstance(v, bool)], without
    any coercion (an [int] is no [bool]). *)
Definition bool_type : Validator := fun v =>
  match v with
  | PyBool _ => Valid v
  | _ => Rejected (TypeInvalid "expected bool")
  end.

(** The value itself when it is a [bool]. *)
Definition only_bool (v : PyValue) : option PyValue :=
  match v with
  | PyBool _ => Some v
  | _ => None
  end.

(** The key markers of voluptuous: [vol.Optional(key)] and
    [vol.Required(key, default=...)] ([None] for no default). *)
Inductive Marker :=
| Optional
| Required (default : option PyValue).

Definition marker_default (entry : Marker * Validator) : option PyValue :=
  match fst entry with
  | Required (Some d) => Some d
  | _ => None
  end.

Definition is_required (entry : Marker * Validator) : bool :=
  match fst entry with
  | Required _ => true
  | Optional => false
  end.

(** [vol.Schema({marker: validator, ...})(data)]: the defaults of the keys
    that the data lacks are put in first; then every entry is validated,
    keys the scheme does not list are refused, and a required key that is
    still missing is an error ("required key not provided"). *)
Definition MarkedSchema (scheme : gmap string (Marker * Validator))
    (data : gmap string PyValue) : option (gmap string PyValue) :=
  let provided := data ∪ omap marker_default scheme in
  if decide (map_Forall
               (fun k entry => is_required entry = true -> is_Some (provided !! k))
               scheme)
  then Schema (snd <$> scheme) provided
  else None.

Section LandxcapeOTS.

(** Modelled from the spec: the attribute names are declared in
    [const.py], which is not among the sources. *)
Variables ATTR_BOUNDARY ATTR_RUNTIME : string.

Definition OTS_SCHEME_dict : gmap string (Marker * Validator) :=
  <[ATTR_RUNTIME := (Required (Some (PyInt 30)), Coerce_int)]>
    (<[ATTR_BOUNDARY := (Required (Some (PyBool false)), bool_type)]> ∅).

Definition OTS_SCHEME : gmap string PyValue -> option (gmap string PyValue) :=
  MarkedSchema OTS_SCHEME_dict.

End LandxcapeOTS.

(** A one-time-schedule request that leaves the boundary flag out, and
    what the scheme makes of it. *)
Definition example_ots_data : gmap string PyValue :=
  {["runtime" := PyStr "45"]}.

Definition example_ots_out : gmap string PyValue :=
  <["runtime" := PyInt 45]> {["boundary" := PyBool false]}.

(** Service data for the concrete runs. *)
Definition example_config_data : gmap string PyValue :=
  <["multizone_distances" := PyStr "10,20"]>
    (<["timeextension" := PyInt (-20)]> {["raindelay" := PyStr "45"]}).

Definition example_config_out : gmap string PyValue :=
  <["multizone_distances" := PyStr "10,20"]>
    (<["timeextension" := PyInt (-20)]> {["raindelay" := PyInt 45]}).

(* ===================================================================== *)
(** * Properties of the feature resolver *)
(* ===================================================================== *)

Ltac run_monad :=
  unfold log, emit, get_self, modify_self, raise, mbind, M_bind, mret, M_ret;
  cbn [fst snd self trace now_calls pending].

Section FeatureResolverFacts.

Variable LFS : LandroidFeatureSupport.t.

(** The whole effect of one call of [check_features], in closed form. *)
Lemma check_features_run (features : Z) (callback_func : option Callable)
    (w : World) :
  let caps := capabilities (LandroidAPI.device (self w)) in
  check_features LFS features callback_func w =
  (Returned tt,
   {| self := LandroidAPI.with_features
                (Z.lor features (true_check_bits LFS caps)) (self w);
      trace := trace w ++ feature_log LFS caps features
               ++ match callback_func with
                  | Some f => [EvCallback f (LandroidAPI.features (self w))]
                  | None => []
                  end;
      now_calls := now_calls w;
      pending := pending w |}).
Proof.
  intros caps. subst caps.
  unfold check_features, feature_log, true_check_bits. run_monad.
  destruct (check _ DeviceCapability.PARTY_MODE),
           (check _ DeviceCapability.ONE_TIME_SCHEDULE),
           (check _ DeviceCapability.EDGE_CUT),
           (check _ DeviceCapability.TORQUE),
           callback_func;
    run_monad;
    rewrite ?Z.lor_assoc, ?Z.lor_0_r, <- ?app_assoc;
    reflexivity.
Qed.

Lemma callback_calls_app (a b : list Event) :
  callback_calls (a ++ b) = callback_calls a ++ callback_calls b.
Proof.
  induction a as [|e a IH]; [reflexivity|].
  destruct e; cbn [app callback_calls]; rewrite IH; reflexivity.
Qed.

Lemma callback_calls_feature_log (caps : Capability) (features : Z) :
  callback_calls (feature_log LFS caps features) = [].
Proof.
  unfold feature_log.
  destruct (check caps DeviceCapability.PARTY_MODE),
           (check caps DeviceCapability.ONE_TIME_SCHEDULE),
           (check caps DeviceCapability.EDGE_CUT),
           (check caps DeviceCapability.TORQUE); reflexivity.
Qed.

(** The stored mask after a call, and the adapter around it. *)
Lemma check_features_self (features : Z) (callback_func : option Callable)
    (w : World) :
  self (snd (check_features LFS features callback_func w)) =
  LandroidAPI.with_features
    (Z.lor features
       (true_check_bits LFS (capabilities (LandroidAPI.device (self w)))))
    (self w).
Proof. rewrite check_features_run. reflexivity. Qed.

Lemma check_features_calls (features : Z) (callback_func : option Callable)
    (w : World) :
  callback_calls (trace (snd (check_features LFS features callback_func w))) =
  callback_calls (trace w)
  ++ match callback_func with
     | Some f => [(f, LandroidAPI.features (self w))]
     | None => []
     end.
Proof.
  rewrite check_features_run. cbn [snd trace].
  rewrite !callback_calls_app, callback_calls_feature_log.
  destruct callback_func; reflexivity.
Qed.

Lemma testbit_true_check_bits (caps : Capability) (i : Z) :
  Z.testbit (true_check_bits LFS caps) i =
  (check caps DeviceCapability.PARTY_MODE
     && Z.testbit (LandroidFeatureSupport.PARTYMODE LFS) i)
  || (check caps DeviceCapability.ONE_TIME_SCHEDULE
        && Z.testbit (LandroidFeatureSupport.OTS LFS) i)
  || (check caps DeviceCapability.EDGE_CUT
        && Z.testbit (LandroidFeatureSupport.EDGECUT LFS) i)
  || (check caps DeviceCapability.TORQUE
        && Z.testbit (LandroidFeatureSupport.TORQUE LFS) i).
Proof.
  unfold true_check_bits. rewrite !Z.lor_spec.
  destruct (check caps DeviceCapability.PARTY_MODE),
           (check caps DeviceCapability.ONE_TIME_SCHEDULE),
           (check caps DeviceCapability.EDGE_CUT),
           (check caps DeviceCapability.TORQUE);
    cbn [andb]; rewrite ?Z.testbit_0_l; reflexivity.
Qed.

(** C1 (amended): after [check_features] the stored mask is the input mask
    joined with the bits of the checks that were true.  Bit by bit: a bit
    is set in the stored mask exactly when it is set in the input mask or
    in the bit of PARTY_MODE, ONE_TIME_SCHEDULE, EDGE_CUT or TORQUE whose
    check was true; and for the input mask 0 the stored mask holds exactly
    the bits of the true checks. *)
Theorem check_features_mask (features : Z) (callback_func : option Callable)
    (w : World) (i : Z) :
  let caps := capabilities (LandroidAPI.device (self w)) in
  let stored :=
    LandroidAPI.features (self (snd (check_features LFS features callback_func w))) in
  stored = Z.lor features (true_check_bits LFS caps)
  /\ Z.testbit stored i =
     Z.testbit features i
     || ((check caps DeviceCapability.PARTY_MODE
            && Z.testbit (LandroidFeatureSupport.PARTYMODE LFS) i)
         || (check caps DeviceCapability.ONE_TIME_SCHEDULE
               && Z.testbit (LandroidFeatureSupport.OTS LFS) i)
         || (check caps DeviceCapability.EDGE_CUT
               && Z.testbit (LandroidFeatureSupport.EDGECUT LFS) i)
         || (check caps DeviceCapability.TORQUE
               && Z.testbit (LandroidFeatureSupport.TORQUE LFS) i))
  /\ LandroidAPI.features (self (snd (check_features LFS 0 callback_func w)))
     = true_check_bits LFS caps.
Proof.
  cbv zeta. rewrite !check_features_self. cbn [LandroidAPI.with_features LandroidAPI.features].
  split; [reflexivity | split].
  - rewrite Z.lor_spec, testbit_true_check_bits. reflexivity.
  - apply Z.lor_0_l.
Qed.

(** C2: the mask that [check_features] stores contains every bit of its
    argument, whatever the capabilities are; it does not depend on the mask
    stored before, which is replaced and is what a supplied callback
    receives. *)
Theorem check_features_superset (features : Z) (callback_func : option Callable)
    (w : World) :
  let w' := snd (check_features LFS features callback_func w) in
  let stored := LandroidAPI.features (self w') in
  Z.land stored features = features
  /\ (forall i, Z.testbit features i = true -> Z.testbit stored i = true)
  /\ (forall previous,
        LandroidAPI.features
          (self (snd (check_features LFS features callback_func
                        (set_self (LandroidAPI.with_features previous (self w)) w))))
        = stored)
  /\ callback_calls (trace w') =
     callback_calls (trace w)
     ++ match callback_func with
        | Some f => [(f, LandroidAPI.features (self w))]
        | None => []
        end.
Proof.
  cbv zeta. rewrite check_features_calls, check_features_self.
  cbn [LandroidAPI.with_features LandroidAPI.features].
  split; [| split; [| split; [| reflexivity]]].
  - apply Z.bits_inj'. intros n _.
    rewrite Z.land_spec, Z.lor_spec.
    destruct (Z.testbit features n); [reflexivity | apply andb_false_r].
  - intros i Hi. rewrite Z.lor_spec, Hi. reflexivity.
  - intros previous. rewrite check_features_self. reflexivity.
Qed.

(** C3: a call of [check_features] with a callback invokes that callback
    exactly once, with the mask that was stored when the call began.  After
    an earlier call the value handed over is the mask that earlier call
    stored, not the one from before it, also when the device reports other
    capabilities by then. *)
Theorem check_features_callback_once (features : Z) (f : Callable) (w : World) :
  let w' := snd (check_features LFS features (Some f) w) in
  callback_calls (trace w') =
    callback_calls (trace w) ++ [(f, LandroidAPI.features (self w))]
  /\ (forall earlier earlier_callback device_now,
        let w1 := snd (check_features LFS earlier earlier_callback w) in
        let w2 :=
          snd (check_features LFS features (Some f)
                 (set_self (LandroidAPI.with_device device_now (self w1)) w1)) in
        callback_calls (trace w2) =
          callback_calls (trace w1)
          ++ [(f, Z.lor earlier
                    (true_check_bits LFS
                       (capabilities (LandroidAPI.device (self w)))))]).
Proof.
  cbv zeta. split.
  - apply check_features_calls.
  - intros earlier earlier_callback device_now.
    rewrite (check_features_calls features (Some f)).
    cbn [set_self self trace].
    rewrite check_features_self. reflexivity.
Qed.

(** C10: [check_features] writes the stored feature mask and no other
    attribute of the adapter: the features-loaded flag, the device handle,
    the name, the registered callbacks and every other field are as
    before, for all capability flags and with or without a callback.  The
    scheduler's queue and the clock are not touched either. *)
Theorem check_features_frame (features : Z) (callback_func : option Callable)
    (w : World) :
  let w' := snd (check_features LFS features callback_func w) in
  self w' = LandroidAPI.with_features (LandroidAPI.features (self w')) (self w)
  /\ LandroidAPI.features_loaded (self w') = LandroidAPI.features_loaded (self w)
  /\ LandroidAPI.device (self w') = LandroidAPI.device (self w)
  /\ LandroidAPI.name (self w') = LandroidAPI.name (self w)
  /\ LandroidAPI.callbacks (self w') = LandroidAPI.callbacks (self w)
  /\ pending w' = pending w
  /\ now_calls w' = now_calls w.
Proof.
  cbv zeta. rewrite check_features_run. repeat split.
Qed.

End FeatureResolverFacts.

(** C1, as stated, fails: on a fresh adapter whose device answers no
    capability check, the input mask 1 is stored as it is, although no
    check was true.  No feature constant enters this run. *)
Lemma check_features_keeps_input_bits :
  LandroidAPI.features
    (self (snd (check_features spec_feature_bits 1 None
                  (fresh (example_api (no_capabilities true)))))) = 1
  /\ true_check_bits spec_feature_bits
       (capabilities (LandroidAPI.device (example_api (no_capabilities true)))) = 0
  /\ LandroidAPI.features
       (self (snd (check_features spec_feature_bits 1 None
                     (fresh (example_api (no_capabilities true))))))
     <> true_check_bits spec_feature_bits
          (capabilities (LandroidAPI.device (example_api (no_capabilities true)))).
Proof. vm_compute. repeat split; discriminate. Qed.

(* ===================================================================== *)
(** * Properties of the readiness gate *)
(* ===================================================================== *)

Section ReadinessGateFacts.

Variable clock : nat -> Z.

(** With the flag set the loop is left at once, whatever the fuel. *)
Lemma wait_loop_loaded (fuel : nat) (timeout_at : Z) (w : World) :
  LandroidAPI.features_loaded (self w) = true ->
  wait_loop clock fuel timeout_at w = (Returned tt, w).
Proof.
  intros Hl. destruct fuel; cbn [wait_loop]; run_monad; rewrite Hl; reflexivity.
Qed.

(** One turn of the loop with the flag unset. *)
Lemma wait_loop_step (fuel : nat) (timeout_at : Z) (w : World) :
  LandroidAPI.features_loaded (self w) = false ->
  wait_loop clock (S fuel) timeout_at w =
  if clock (now_calls w) >? timeout_at
  then (Returned tt, set_now_calls (S (now_calls w)) w)
  else wait_loop clock fuel timeout_at (set_now_calls (S (now_calls w)) w).
Proof.
  intros Hl. cbn [wait_loop]. run_monad. rewrite Hl. cbn [negb].
  unfold now. destruct (clock (now_calls w) >? timeout_at); reflexivity.
Qed.

(** The loop changes nothing but the number of clock readings, and it
    either ends normally or is still turning with the flag unset. *)
Lemma wait_loop_shape (fuel : nat) (timeout_at : Z) (w : World) :
  exists n : nat,
    (now_calls w <= n)%nat
    /\ snd (wait_loop clock fuel timeout_at w) = set_now_calls n w
    /\ (fst (wait_loop clock fuel timeout_at w) = Returned tt
        \/ (fst (wait_loop clock fuel timeout_at w) = OutOfFuel
            /\ LandroidAPI.features_loaded (self w) = false)).
Proof.
  revert w. induction fuel as [|fuel IH]; intros w.
  - exists (now_calls w). split; [lia|].
    cbn [wait_loop]. run_monad.
    destruct w as [a tr n p]; cbn [self now_calls set_now_calls trace pending].
    destruct (LandroidAPI.features_loaded a); cbn; auto.
  - destruct (LandroidAPI.features_loaded (self w)) eqn:Hl.
    + exists (now_calls w). rewrite wait_loop_loaded by exact Hl.
      destruct w; cbn; auto.
    + rewrite wait_loop_step by exact Hl.
      destruct (clock (now_calls w) >? timeout_at).
      * exists (S (now_calls w)). cbn. auto.
      * destruct (IH (set_now_calls (S (now_calls w)) w)) as (n & Hn & Hs & Hf).
        exists n. cbn [set_now_calls now_calls self] in *.
        split; [lia|]. split; [rewrite Hs; reflexivity|].
        destruct Hf as [Hf | [Hf _]]; auto.
Qed.

(** The gate is: read the clock, compute the deadline, turn the loop, then
    check. *)
Lemma async_await_features_unfold (fuel : nat) (timeout : Z) (w : World) :
  async_await_features clock fuel timeout w =
  match deadline (clock (now_calls w)) timeout with
  | Some timeout_at => after_deadline clock fuel timeout_at w
  | None => (Raised OverflowError, set_now_calls (S (now_calls w)) w)
  end.
Proof.
  unfold async_await_features, deadline, after_deadline, or_overflow.
  run_monad. unfold now at 1.
  fold (set_now_calls (S (now_calls w)) w).
  destruct (timedelta_seconds timeout) as [delta|]; [|reflexivity].
  destruct (datetime_add (clock (now_calls w)) delta) as [timeout_at|]; [|reflexivity].
  destruct (wait_loop clock fuel _ _) as [[[]|e|] w2]; [|reflexivity|reflexivity].
  unfold after_wait. cbv zeta.
  destruct (negb (ready _) || negb (LandroidAPI.features_loaded _) || _); reflexivity.
Qed.

(** A deadline is the time of the call plus the timeout in seconds, and it
    is a point in time that [datetime] can hold. *)
Lemma deadline_Some (t0 timeout timeout_at : Z) :
  deadline t0 timeout = Some timeout_at ->
  timeout_at = t0 + 1000000 * timeout
  /\ 0 <= timeout_at <= DATETIME_MAX
  /\ - MAX_DELTA_DAYS <= timeout / 86400 <= MAX_DELTA_DAYS.
Proof.
  unfold deadline, timedelta_seconds, datetime_add. cbv zeta.
  destruct (_ && _) eqn:Hdays; [|discriminate].
  destruct ((0 <=? _) && _) eqn:Hrange; [|discriminate].
  intros [= <-].
  apply andb_true_iff in Hdays as [H1 H2].
  apply andb_true_iff in Hrange as [H3 H4].
  apply Z.leb_le in H1, H2, H3, H4. lia.
Qed.

(** The converse: a timeout of at most [MAX_DELTA_DAYS] days and a sum in
    the range of [datetime] give a deadline. *)
Lemma deadline_in_range (t0 timeout : Z) :
  - MAX_DELTA_DAYS <= timeout / 86400 <= MAX_DELTA_DAYS ->
  0 <= t0 + 1000000 * timeout <= DATETIME_MAX ->
  deadline t0 timeout = Some (t0 + 1000000 * timeout).
Proof.
  intros Hdays Hrange. unfold deadline, timedelta_seconds, datetime_add. cbv zeta.
  replace ((- MAX_DELTA_DAYS <=? timeout / 86400) && (timeout / 86400 <=? MAX_DELTA_DAYS))
    with true
    by (symmetry; apply andb_true_iff; split; apply Z.leb_le; lia).
  replace ((0 <=? t0 + 1000000 * timeout) && (t0 + 1000000 * timeout <=? DATETIME_MAX)) with true
    by (symmetry; apply andb_true_iff; split; apply Z.leb_le; lia).
  reflexivity.
Qed.

(** If some reading of the clock lies past the deadline, the loop ends at
    the first such reading: after [n] readings, of which the last is the
    first one past the deadline. *)
Lemma wait_loop_exits (timeout_at : Z) (k : nat) :
  forall w : World,
    LandroidAPI.features_loaded (self w) = false ->
    clock (now_calls w + k) > timeout_at ->
    exists n : nat,
      (1 <= n <= S k)%nat
      /\ (forall fuel, (n <= fuel)%nat ->
            wait_loop clock fuel timeout_at w =
            (Returned tt, set_now_calls (now_calls w + n) w))
      /\ clock (now_calls w + n - 1) > timeout_at
      /\ (forall j, (j < n - 1)%nat -> clock (now_calls w + j) <= timeout_at).
Proof.
  induction k as [|k IH]; intros w Hl Hk.
  - exists 1%nat. rewrite Nat.add_0_r in Hk.
    split; [lia|]. split; [|split].
    + intros [|fuel] Hf; [lia|].
      rewrite wait_loop_step by exact Hl.
      replace (clock (now_calls w) >? timeout_at) with true
        by (symmetry; apply Z.gtb_lt; lia).
      rewrite Nat.add_1_r. reflexivity.
    + replace (now_calls w + 1 - 1)%nat with (now_calls w) by lia. exact Hk.
    + intros j Hj. lia.
  - destruct (clock (now_calls w) >? timeout_at) eqn:Hnow.
    + exists 1%nat. split; [lia|]. split; [|split].
      * intros [|fuel] Hf; [lia|].
        rewrite wait_loop_step by exact Hl. rewrite Hnow.
        rewrite Nat.add_1_r. reflexivity.
      * replace (now_calls w + 1 - 1)%nat with (now_calls w) by lia.
        apply Z.gtb_lt in Hnow. lia.
      * intros j Hj. lia.
    + destruct (IH (set_now_calls (S (now_calls w)) w)) as (n & Hn & Hrun & Hlast & Hfirst).
      * exact Hl.
      * cbn [set_now_calls now_calls].
        replace (S (now_calls w) + k)%nat with (now_calls w + S k)%nat by lia.
        exact Hk.
      * cbn [set_now_calls now_calls self trace pending] in *.
        exists (S n). split; [lia|]. split; [|split].
        -- intros [|fuel] Hf; [lia|].
           rewrite wait_loop_step by exact Hl. rewrite Hnow.
           rewrite Hrun by lia. cbn [set_now_calls now_calls self trace pending].
           replace (S (now_calls w) + n)%nat with (now_calls w + S n)%nat by lia.
           reflexivity.
        -- replace (now_calls w + S n - 1)%nat with (S (now_calls w) + n - 1)%nat by lia.
           exact Hlast.
        -- intros j Hj. destruct j as [|j].
           ++ rewrite Nat.add_0_r.
              destruct (Z.gtb_spec (clock (now_calls w)) timeout_at); [discriminate | lia].
           ++ replace (now_calls w + S j)%nat with (S (now_calls w) + j)%nat by lia.
              apply Hfirst. lia.
Qed.

(** The check after the loop, by cases. *)
Lemma after_wait_cases (w : World) :
  let this := self w in
  let caps := capabilities (LandroidAPI.device this) in
  (ready caps = true
   /\ LandroidAPI.features_loaded this = true
   /\ LandroidAPI.features this <> 0
   /\ after_wait w =
      (Returned tt,
       {| self := LandroidAPI.with_device
                    (set_eventloop (LandroidAPI.hass_loop this) (LandroidAPI.device this))
                    this;
          trace := trace w ++ [EvSetEventloop (LandroidAPI.hass_loop this)];
          now_calls := now_calls w;
          pending := pending w |}))
  \/ ((ready caps = false
       \/ LandroidAPI.features_loaded this = false
       \/ LandroidAPI.features this = 0)
      /\ after_wait w =
         (Raised (ValueError (ready caps) (LandroidAPI.features_loaded this)
                             (LandroidAPI.features this)), w)).
Proof.
  cbv zeta. unfold after_wait. cbv zeta.
  destruct (ready _); [|right; cbn; auto].
  destruct (LandroidAPI.features_loaded _); [|right; cbn; auto].
  destruct (Z.eqb_spec (LandroidAPI.features (self w)) 0) as [Hz|Hz].
  - right. cbn. auto.
  - left. cbn. auto.
Qed.

(** The outcome of the gate once it has its deadline, by cases: it
    raises nothing but the [ValueError] that carries the capability-ready
    flag, the features-loaded flag and the feature mask, and it raises
    exactly when, the loop being over, the report is not ready or the flag
    is not set or the mask is zero; otherwise it calls [set_eventloop]
    with the host's loop and returns. *)
Lemma after_deadline_outcome (fuel : nat) (timeout_at : Z) (w : World) :
  let this := self w in
  let caps := capabilities (LandroidAPI.device this) in
  let r := after_deadline clock fuel timeout_at w in
  let bound :=
    {| self := LandroidAPI.with_device
                 (set_eventloop (LandroidAPI.hass_loop this) (LandroidAPI.device this))
                 this;
       trace := trace w ++ [EvSetEventloop (LandroidAPI.hass_loop this)];
       now_calls := S (now_calls w);
       pending := pending w |} in
  match fst r with
  | Returned _ =>
      ready caps = true
      /\ LandroidAPI.features_loaded this = true
      /\ LandroidAPI.features this <> 0
      /\ trace (snd r) = trace w ++ [EvSetEventloop (LandroidAPI.hass_loop this)]
      /\ eventloop (mqtt (LandroidAPI.device (self (snd r))))
         = Some (LandroidAPI.hass_loop this)
  | Raised e =>
      e = ValueError (ready caps) (LandroidAPI.features_loaded this)
                     (LandroidAPI.features this)
      /\ (ready caps = false
          \/ LandroidAPI.features_loaded this = false
          \/ LandroidAPI.features this = 0)
      /\ trace (snd r) = trace w
      /\ self (snd r) = this
  | OutOfFuel => LandroidAPI.features_loaded this = false
  end
  /\ (if ready caps && LandroidAPI.features_loaded this
         && negb (LandroidAPI.features this =? 0)
      then forall fuel', after_deadline clock fuel' timeout_at w = (Returned tt, bound)
      else fst r <> Returned tt).
Proof.
  cbv zeta. unfold after_deadline.
  destruct (wait_loop_shape fuel timeout_at
              (set_now_calls (S (now_calls w)) w)) as (n & _ & Hs & Hf).
  destruct (wait_loop clock fuel _ _) as [o w2].
  cbn [fst snd set_now_calls self trace now_calls pending] in Hs, Hf.
  subst w2.
  destruct Hf as [-> | [-> Hl]]; cbv beta iota.
  - destruct (after_wait_cases (set_now_calls n (set_now_calls (S (now_calls w)) w)))
      as [(Hr & Hl & Hz & E) | (Hc & E)];
      rewrite E; clear E;
      cbn [fst snd set_now_calls self trace now_calls pending] in *.
    + rewrite Hr, Hl. apply Z.eqb_neq in Hz. rewrite Hz. cbn [andb negb].
      apply Z.eqb_neq in Hz.
      split; [split; [reflexivity | split; [reflexivity | split; [exact Hz | split; reflexivity]]] |].
      intros fuel'.
      rewrite wait_loop_loaded by exact Hl.
      destruct (after_wait_cases (set_now_calls (S (now_calls w)) w))
        as [(_ & _ & _ & E) | ([Hc | [Hc | Hc]] & _)];
        cbn [set_now_calls self trace now_calls pending] in *;
        [exact E | congruence | congruence | contradiction].
    + split; [split; [reflexivity | split; [exact Hc | split; reflexivity]] |].
      destruct Hc as [Hc | [Hc | Hc]]; rewrite Hc;
        rewrite ?andb_false_r; cbn [andb negb]; discriminate.
  - cbn [fst]. split; [exact Hl|].
    rewrite Hl, andb_false_r. cbn [andb]. discriminate.
Qed.

(** C4 (amended): [async_await_features] reads the clock and computes its
    deadline, the time of the call plus the timeout in seconds.  Where
    that is not a point in time [datetime] can hold, it raises
    [OverflowError] there and then, whatever the state of the adapter.
    Otherwise it raises nothing but the [ValueError] that carries the
    capability-ready flag, the features-loaded flag and the feature mask,
    and it raises exactly when, the loop being over, the report is not
    ready or the flag is not set or the mask is zero; otherwise it calls
    [set_eventloop] with the host's loop and returns.  When the three
    conditions hold at call time it returns at once: no fuel is needed and
    the clock is read only for the deadline. *)
Theorem async_await_features_outcome (fuel : nat) (timeout : Z) (w : World) :
  let this := self w in
  let caps := capabilities (LandroidAPI.device this) in
  let r := async_await_features clock fuel timeout w in
  let bound :=
    {| self := LandroidAPI.with_device
                 (set_eventloop (LandroidAPI.hass_loop this) (LandroidAPI.device this))
                 this;
       trace := trace w ++ [EvSetEventloop (LandroidAPI.hass_loop this)];
       now_calls := S (now_calls w);
       pending := pending w |} in
  match deadline (clock (now_calls w)) timeout with
  | None => r = (Raised OverflowError, set_now_calls (S (now_calls w)) w)
  | Some _ =>
      match fst r with
      | Returned _ =>
          ready caps = true
          /\ LandroidAPI.features_loaded this = true
          /\ LandroidAPI.features this <> 0
          /\ trace (snd r) = trace w ++ [EvSetEventloop (LandroidAPI.hass_loop this)]
          /\ eventloop (mqtt (LandroidAPI.device (self (snd r))))
             = Some (LandroidAPI.hass_loop this)
      | Raised e =>
          e = ValueError (ready caps) (LandroidAPI.features_loaded this)
                         (LandroidAPI.features this)
          /\ (ready caps = false
              \/ LandroidAPI.features_loaded this = false
              \/ LandroidAPI.features this = 0)
          /\ trace (snd r) = trace w
          /\ self (snd r) = this
      | OutOfFuel => LandroidAPI.features_loaded this = false
      end
      /\ (if ready caps && LandroidAPI.features_loaded this
             && negb (LandroidAPI.features this =? 0)
          then forall fuel',
                 async_await_features clock fuel' timeout w = (Returned tt, bound)
          else fst r <> Returned tt)
  end.
Proof.
  cbv zeta. rewrite async_await_features_unfold.
  destruct (deadline (clock (now_calls w)) timeout) as [timeout_at|] eqn:Hd;
    [|reflexivity].
  pose proof (after_deadline_outcome fuel timeout_at w) as [Hcases Hcond].
  cbv zeta in Hcases, Hcond.
  split; [exact Hcases|].
  destruct (ready _ && LandroidAPI.features_loaded _ && negb _).
  - intros fuel'. rewrite async_await_features_unfold, Hd. apply Hcond.
  - exact Hcond.
Qed.

(** With the flag unset and a clock that at some reading is past the
    deadline, the loop stops at the first such reading and the diagnostic
    [ValueError] is raised there. *)
Lemma after_deadline_times_out (timeout_at : Z) (w : World) :
  LandroidAPI.features_loaded (self w) = false ->
  (exists k : nat, clock (S (now_calls w) + k) > timeout_at) ->
  exists n : nat,
    (1 <= n)%nat
    /\ (forall fuel, (n <= fuel)%nat ->
          after_deadline clock fuel timeout_at w =
          (Raised (ValueError
                     (ready (capabilities (LandroidAPI.device (self w))))
                     false
                     (LandroidAPI.features (self w))),
           set_now_calls (S (now_calls w) + n) w))
    /\ clock (now_calls w + n) > timeout_at
    /\ (forall j, (1 <= j < n)%nat -> clock (now_calls w + j) <= timeout_at).
Proof.
  intros Hl [k Hk].
  destruct (wait_loop_exits timeout_at k
              (set_now_calls (S (now_calls w)) w) Hl Hk)
    as (n & Hn & Hrun & Hlast & Hfirst).
  cbn [set_now_calls now_calls self trace pending] in *.
  exists n. split; [lia|]. split; [|split].
  - intros fuel Hfuel. unfold after_deadline.
    rewrite Hrun by exact Hfuel.
    unfold after_wait. cbv zeta. cbn [set_now_calls now_calls self trace pending].
    rewrite Hl. cbn [negb]. rewrite orb_true_r. cbn [orb]. reflexivity.
  - replace (now_calls w + n)%nat with (S (now_calls w) + n - 1)%nat by lia.
    exact Hlast.
  - intros j Hj.
    replace (now_calls w + j)%nat with (S (now_calls w) + (j - 1))%nat by lia.
    apply Hfirst. lia.
Qed.

(** C6 (amended): for every timeout whose deadline, the time of the call
    plus the timeout in seconds, is a point in time [datetime] can hold:
    with the features-loaded flag unset and a clock that at some reading
    is past the deadline, the gate terminates: the loop stops at the first
    reading past the deadline, every earlier reading being at or before
    it, and the diagnostic [ValueError] is raised there. *)
Theorem async_await_features_times_out (timeout timeout_at : Z) (w : World) :
  LandroidAPI.features_loaded (self w) = false ->
  deadline (clock (now_calls w)) timeout = Some timeout_at ->
  (exists k : nat, clock (S (now_calls w) + k) > timeout_at) ->
  timeout_at = clock (now_calls w) + 1000000 * timeout
  /\ exists n : nat,
    (1 <= n)%nat
    /\ (forall fuel, (n <= fuel)%nat ->
          async_await_features clock fuel timeout w =
          (Raised (ValueError
                     (ready (capabilities (LandroidAPI.device (self w))))
                     false
                     (LandroidAPI.features (self w))),
           set_now_calls (S (now_calls w) + n) w))
    /\ clock (now_calls w + n) > timeout_at
    /\ (forall j, (1 <= j < n)%nat -> clock (now_calls w + j) <= timeout_at).
Proof.
  intros Hl Hd Hpast.
  split; [exact (proj1 (deadline_Some _ _ _ Hd))|].
  destruct (after_deadline_times_out timeout_at w Hl Hpast)
    as (n & Hn & Hrun & Hlast & Hfirst).
  exists n. split; [exact Hn|]. split; [|split; [exact Hlast | exact Hfirst]].
  intros fuel Hfuel. rewrite async_await_features_unfold, Hd.
  apply Hrun. exact Hfuel.
Qed.

Lemma suspensions_app (a b : list Event) :
  suspensions (a ++ b) = (suspensions a + suspensions b)%nat.
Proof.
  induction a as [|e a IH]; [reflexivity|].
  destruct e; cbn [app suspensions]; rewrite IH; reflexivity.
Qed.

(** The gate has no suspension point: it never gives up control, and the
    tasks that are ready when it starts are still waiting when it ends. *)
Lemma async_await_features_never_suspends (fuel : nat) (timeout : Z) (w : World) :
  suspensions (trace (snd (async_await_features clock fuel timeout w)))
  = suspensions (trace w)
  /\ pending (snd (async_await_features clock fuel timeout w)) = pending w.
Proof.
  rewrite async_await_features_unfold.
  destruct (deadline (clock (now_calls w)) timeout) as [timeout_at|];
    [|split; reflexivity].
  unfold after_deadline.
  destruct (wait_loop_shape fuel timeout_at
              (set_now_calls (S (now_calls w)) w)) as (n & _ & Hs & _).
  destruct (wait_loop clock fuel _ _) as [o w2].
  cbn [snd] in Hs. subst w2.
  destruct o as [[]|e|]; cbv beta iota; [|split; reflexivity..].
  destruct (after_wait_cases (set_now_calls n (set_now_calls (S (now_calls w)) w)))
    as [(_ & _ & _ & E) | (_ & E)];
    rewrite E; cbn [snd set_now_calls self trace now_calls pending].
  - rewrite suspensions_app. cbn [suspensions]. split; [lia | reflexivity].
  - split; reflexivity.
Qed.

End ReadinessGateFacts.

(** C5 (amended): after [check_features] has left a non-zero stored mask,
    and with the capability report ready, [async_await_features] returns
    without error provided the features-loaded flag is set and the
    deadline, the time of the call plus the timeout, is a point in time
    [datetime] can hold; the resolver does not set that flag, so this is a
    change of state the gate needs besides the resolver's call. *)
Theorem gate_passes_after_resolver_when_flag_set
    (LFS : LandroidFeatureSupport.t) (clock : nat -> Z) (fuel : nat)
    (timeout timeout_at : Z)
    (features : Z) (callback_func : option Callable) (w : World) :
  ready (capabilities (LandroidAPI.device (self w))) = true ->
  LandroidAPI.features_loaded (self w) = true ->
  LandroidAPI.features (self (snd (check_features LFS features callback_func w))) <> 0 ->
  deadline (clock (now_calls w)) timeout = Some timeout_at ->
  fst (async_await_features clock fuel timeout
         (snd (check_features LFS features callback_func w))) = Returned tt.
Proof.
  intros Hr Hl Hz Hd.
  rewrite check_features_run in *. cbv zeta in *. cbn [snd self] in Hz.
  rewrite async_await_features_unfold.
  cbn [snd set_now_calls self trace now_calls pending].
  rewrite Hd. unfold after_deadline.
  cbn [snd set_now_calls self trace now_calls pending].
  rewrite wait_loop_loaded by exact Hl.
  match goal with
  | |- context [after_wait ?W] =>
      destruct (after_wait_cases W) as [(_ & _ & _ & E) | ([Hc | [Hc | Hc]] & _)]
  end.
  - rewrite E. reflexivity.
  - cbn in Hc. congruence.
  - cbn in Hc. congruence.
  - cbn [self] in Hc. contradiction.
Qed.

(** Without the flag the gate never returns normally, whatever the clock,
    the fuel and the timeout. *)
Lemma gate_needs_flag (clock : nat -> Z) (fuel : nat) (timeout : Z) (w : World) :
  LandroidAPI.features_loaded (self w) = false ->
  fst (async_await_features clock fuel timeout w) <> Returned tt.
Proof.
  intros Hl. rewrite async_await_features_unfold.
  destruct (deadline (clock (now_calls w)) timeout) as [timeout_at|];
    [|discriminate].
  unfold after_deadline.
  destruct (wait_loop_shape clock fuel timeout_at
              (set_now_calls (S (now_calls w)) w)) as (n & _ & Hs & _).
  destruct (wait_loop clock fuel _ _) as [o w2].
  cbn [snd] in Hs. subst w2.
  destruct o as [[]|e|]; cbv beta iota; [|discriminate..].
  destruct (after_wait_cases (set_now_calls n (set_now_calls (S (now_calls w)) w)))
    as [(_ & Hl' & _) | (_ & E)].
  - cbn [set_now_calls self] in Hl'. congruence.
  - rewrite E. discriminate.
Qed.

(** C5, as stated, fails: the adapter as [__init__] leaves it, the resolver
    run on it with every capability present, the report ready and the mask
    non-zero; the gate, called next with a timeout of ten seconds, spins to
    the deadline and raises, because nothing has set the features-loaded
    flag.  No clock, fuel or timeout makes it return. *)
Lemma gate_fails_after_resolver_alone :
  let w1 :=
    snd (check_features spec_feature_bits (DEVICE_FEATURES spec_feature_bits) None
           (fresh (example_api (all_capabilities true)))) in
  ready (capabilities (LandroidAPI.device (self w1))) = true
  /\ LandroidAPI.features (self w1) = 4095
  /\ LandroidAPI.features_loaded (self w1) = false
  /\ fst (async_await_features second_clock 100 10 w1)
     = Raised (ValueError true false 4095)
  /\ (forall clock fuel timeout,
        fst (async_await_features clock fuel timeout w1) <> Returned tt).
Proof.
  cbv zeta. split; [reflexivity|]. split; [reflexivity|]. split; [reflexivity|].
  split; [vm_compute; reflexivity|].
  intros clock fuel timeout. apply gate_needs_flag. reflexivity.
Qed.

Lemma gate_passes_after_resolver_when_flag_set_witness :
  let w :=
    fresh (LandroidAPI.with_features_loaded true
             (example_api (all_capabilities true))) in
  fst (async_await_features second_clock 0 10
         (snd (check_features spec_feature_bits
                 (DEVICE_FEATURES spec_feature_bits) None w)))
  = Returned tt.
Proof.
  cbv zeta.
  apply (gate_passes_after_resolver_when_flag_set spec_feature_bits second_clock 0 10
           10000000
           (DEVICE_FEATURES spec_feature_bits) None
           (fresh (LandroidAPI.with_features_loaded true
                     (example_api (all_capabilities true))))).
  - reflexivity.
  - reflexivity.
  - vm_compute. discriminate.
  - reflexivity.
Defined.

(** C4, as stated, fails: the report ready, the flag set and the mask
    non-zero, so that the three conditions hold at call time, and yet the
    gate, called with a timeout of 10^12 seconds, neither returns nor
    raises the [ValueError]: the deadline would lie past the year 9999,
    and line 95 raises [OverflowError] before the loop is reached. *)
Lemma async_await_features_raises_overflow :
  let w :=
    fresh (LandroidAPI.with_features 255
             (LandroidAPI.with_features_loaded true
                (example_api (all_capabilities true)))) in
  ready (capabilities (LandroidAPI.device (self w))) = true
  /\ LandroidAPI.features_loaded (self w) = true
  /\ LandroidAPI.features (self w) = 255
  /\ timedelta_seconds 1000000000000 = Some 1000000000000000000
  /\ datetime_add (second_clock 0) 1000000000000000000 = None
  /\ (forall fuel,
        async_await_features second_clock fuel 1000000000000 w
        = (Raised OverflowError, set_now_calls 1 w)).
Proof.
  cbv zeta. split; [reflexivity|]. split; [reflexivity|]. split; [reflexivity|].
  split; [reflexivity|]. split; [reflexivity|].
  intros fuel. rewrite async_await_features_unfold. reflexivity.
Qed.

Lemma async_await_features_times_out_witness :
  let w := fresh (example_api (no_capabilities true)) in
  10000000 = second_clock (now_calls w) + 1000000 * 10
  /\ exists n : nat,
    (1 <= n)%nat
    /\ (forall fuel, (n <= fuel)%nat ->
          async_await_features second_clock fuel 10 w =
          (Raised (ValueError
                     (ready (capabilities (LandroidAPI.device (self w))))
                     false
                     (LandroidAPI.features (self w))),
           set_now_calls (S (now_calls w) + n) w))
    /\ second_clock (now_calls w + n) > 10000000
    /\ (forall j, (1 <= j < n)%nat ->
          second_clock (now_calls w + j) <= 10000000).
Proof.
  cbv zeta.
  apply (async_await_features_times_out second_clock 10 10000000
           (fresh (example_api (no_capabilities true)))).
  - reflexivity.
  - reflexivity.
  - exists 10%nat. reflexivity.
Defined.

(** C6, as stated, fails for some timeouts: with the flag unset and a
    timeout of -10^12 seconds, every reading of the clock is past the time
    of the call plus the timeout, and yet the diagnostic error is never
    raised: that time lies before the year 1, the deadline cannot be
    computed, and the gate raises [OverflowError] after its first reading
    of the clock, whatever the number of turns allowed.  A timeout of
    10^14 seconds is more days than a [timedelta] holds, with the same
    result. *)
Lemma async_await_features_without_deadline :
  let w := fresh (example_api (no_capabilities true)) in
  LandroidAPI.features_loaded (self w) = false
  /\ second_clock 1 > second_clock 0 + 1000000 * (-1000000000000)
  /\ deadline (second_clock 0) (-1000000000000) = None
  /\ (forall fuel,
        async_await_features second_clock fuel (-1000000000000) w
        = (Raised OverflowError, set_now_calls 1 w))
  /\ timedelta_seconds 100000000000000 = None
  /\ (forall fuel,
        async_await_features second_clock fuel 100000000000000 w
        = (Raised OverflowError, set_now_calls 1 w)).
Proof.
  cbv zeta. split; [reflexivity|]. split; [reflexivity|]. split; [reflexivity|].
  split; [|split; [reflexivity|]].
  - intros fuel. rewrite async_await_features_unfold. reflexivity.
  - intros fuel. rewrite async_await_features_unfold. reflexivity.
Qed.

(** C7, on the code: with the features-loaded flag unset, a timeout of ten
    seconds and another task ready to set the flag, the gate reads the
    clock twelve times, one second apart, without suspending once; the
    ready task is still waiting when the [ValueError] is raised, although a
    single suspension would have let it set the flag. *)
Theorem wait_loop_spins_without_suspending :
  let r := async_await_features second_clock 100 10 waiting_world in
  fst r = Raised (ValueError true false 255)
  /\ now_calls (snd r) = 12%nat
  /\ suspensions (trace (snd r)) = 0%nat
  /\ length (pending (snd r)) = 1%nat
  /\ LandroidAPI.features_loaded (self (snd (suspend waiting_world))) = true.
Proof. vm_compute. repeat split. Qed.

(* ===================================================================== *)
(** * Properties of the republisher *)
(* ===================================================================== *)

Ltac by_ascii_cases c :=
  destruct c as [[] [] [] [] [] [] [] []]; vm_compute; try reflexivity; try discriminate.

Lemma is_alnum_to_lower (c : ascii) : is_alnum (to_lower c) = is_alnum c.
Proof. by_ascii_cases c. Qed.

Lemma is_digit_to_lower (c : ascii) : is_digit (to_lower c) = is_digit c.
Proof. by_ascii_cases c. Qed.

Lemma to_lower_idem (c : ascii) : to_lower (to_lower c) = to_lower c.
Proof. by_ascii_cases c. Qed.

Lemma comma_to_lower (c : ascii) : Ascii.eqb (to_lower c) "," = Ascii.eqb c ",".
Proof. by_ascii_cases c. Qed.

Lemma to_lower_slug_char (c : ascii) :
  is_alnum c = true -> slug_char (to_lower c) = true.
Proof. by_ascii_cases c. Qed.

Lemma lower_app (a b : string) : lower (a +:+ b) = lower a +:+ lower b.
Proof.
  induction a as [|c a IH]; [reflexivity|].
  change (lower (String c (a +:+ b)) = String (to_lower c) (lower a +:+ lower b)).
  cbn [lower]. rewrite IH. reflexivity.
Qed.

Lemma lower_idem (s : string) : lower (lower s) = lower s.
Proof.
  induction s as [|c s IH]; [reflexivity|].
  cbn [lower]. rewrite to_lower_idem, IH. reflexivity.
Qed.

Lemma cleanup_numbers_lower (s : string) :
  forall prev_digit,
    cleanup_numbers prev_digit (lower s) = lower (cleanup_numbers prev_digit s).
Proof.
  induction s as [|c s IH]; intros prev_digit; [reflexivity|].
  cbn [lower cleanup_numbers].
  rewrite comma_to_lower, is_digit_to_lower.
  replace (starts_with_digit (lower s)) with (starts_with_digit s)
    by (destruct s; cbn; rewrite ?is_digit_to_lower; reflexivity).
  destruct (Ascii.eqb c "," && prev_digit && starts_with_digit s).
  - apply IH.
  - cbn [lower]. rewrite IH. reflexivity.
Qed.

Lemma slug_runs_lower (s : string) :
  forall st, slug_runs st (lower s) = slug_runs st s.
Proof.
  induction s as [|c s IH]; intros st; [reflexivity|].
  cbn [lower slug_runs].
  rewrite is_alnum_to_lower, to_lower_idem, !IH. reflexivity.
Qed.

(** Letter case in the text does not reach the slug. *)
Lemma util_slugify_lower (s : string) : util_slugify (lower s) = util_slugify s.
Proof.
  unfold util_slugify.
  replace (String.eqb (lower s) "") with (String.eqb s "") by (destruct s; reflexivity).
  rewrite cleanup_numbers_lower, slug_runs_lower. reflexivity.
Qed.

Lemma slug_runs_chars (s : string) :
  forall st, forallb slug_char (list_ascii_of_string (slug_runs st s)) = true.
Proof.
  induction s as [|c s IH]; intros st; [reflexivity|].
  cbn [slug_runs].
  destruct (is_alnum c) eqn:Hc.
  - destruct st; cbn [list_ascii_of_string forallb];
      rewrite (to_lower_slug_char c Hc), IH; reflexivity.
  - destruct st; apply IH.
Qed.

(** A slug holds lower-case letters, digits and underscores only. *)
Lemma util_slugify_chars (s : string) :
  forallb slug_char (list_ascii_of_string (util_slugify s)) = true.
Proof.
  unfold util_slugify.
  destruct (String.eqb s ""); [reflexivity|].
  destruct (String.eqb (slug_runs AtStart (cleanup_numbers false s)) "").
  - reflexivity.
  - apply slug_runs_chars.
Qed.

Lemma dispatched_app (a b : list Event) :
  dispatched (a ++ b) = dispatched a ++ dispatched b.
Proof.
  induction a as [|e a IH]; [reflexivity|].
  destruct e; cbn [app dispatched]; rewrite IH; reflexivity.
Qed.

Section RepublisherFacts.

Variable UPDATE_SIGNAL : string.

Lemma receive_data_run (name : string) (device : DeviceHandler) (w : World) :
  let signal := util_slugify (UPDATE_SIGNAL +:+ "_" +:+ name) in
  receive_data UPDATE_SIGNAL name device w =
  (Returned tt,
   {| self := self w;
      trace := trace w
               ++ [EvLog SelfLogger LoggerType.DATA_UPDATE
                     "Received new data from API to %s, dispatching %s"
                     [AStr name; AStr signal];
                   EvDispatch signal];
      now_calls := now_calls w;
      pending := pending w |}).
Proof.
  cbv zeta. unfold receive_data. run_monad. rewrite <- app_assoc. reflexivity.
Qed.

(** C8: for every device name, [receive_data] sends exactly one signal,
    the slug of the update-signal prefix joined to the name by an
    underscore.  The signal depends on the name alone (not on the device
    object passed, nor on the adapter), it is written in lower-case
    letters, digits and underscores, names that differ in letter case give
    the same signal, and the name "My Mower 1" under the prefix
    "landroid_cloud_state_update" gives
    "landroid_cloud_state_update_my_mower_1". *)
Theorem receive_data_signal (name : string) (device : DeviceHandler) (w : World) :
  let signal := util_slugify (UPDATE_SIGNAL +:+ "_" +:+ name) in
  dispatched (trace (snd (receive_data UPDATE_SIGNAL name device w)))
    = dispatched (trace w) ++ [signal]
  /\ (forall device' w',
        dispatched (trace (snd (receive_data UPDATE_SIGNAL name device' w')))
        = dispatched (trace w') ++ [signal])
  /\ forallb slug_char (list_ascii_of_string signal) = true
  /\ util_slugify (UPDATE_SIGNAL +:+ "_" +:+ lower name) = signal
  /\ util_slugify ("landroid_cloud_state_update" +:+ "_" +:+ "My Mower 1")
     = "landroid_cloud_state_update_my_mower_1".
Proof.
  cbv zeta.
  assert (Hsend : forall d w0,
             dispatched (trace (snd (receive_data UPDATE_SIGNAL name d w0)))
             = dispatched (trace w0)
               ++ [util_slugify (UPDATE_SIGNAL +:+ "_" +:+ name)]).
  { intros d w0. rewrite receive_data_run. cbv zeta. cbn [snd trace].
    rewrite dispatched_app. reflexivity. }
  split; [apply Hsend|]. split; [exact Hsend|].
  split; [apply util_slugify_chars|]. split; [|reflexivity].
  rewrite <- util_slugify_lower.
  rewrite <- (util_slugify_lower (UPDATE_SIGNAL +:+ "_" +:+ name)).
  rewrite !lower_app, lower_idem. reflexivity.
Qed.

End RepublisherFacts.

(* ===================================================================== *)
(** * Properties of the configuration scheme *)
(* ===================================================================== *)

(** [vol.All(vol.Coerce(int), vol.Range(lo, hi))], in closed form. *)
Lemma All_Coerce_Range (lo hi : Z) (v : PyValue) :
  All [Coerce_int; Range lo hi] v =
  match py_int v with
  | Some n =>
      if negb (n >=? lo) then Rejected (RangeInvalid "value must be at least %s" (Some lo))
      else if negb (n <=? hi) then Rejected (RangeInvalid "value must be at most %s" (Some hi))
      else Valid (PyInt n)
  | None =>
      match int_call v with
      | inr PyOverflowError => Uncaught PyOverflowError
      | _ => Rejected (CoerceInvalid "expected int")
      end
  end.
Proof.
  cbn [All]. unfold Coerce_int, py_int.
  destruct (int_call v) as [n|[]]; [|reflexivity..].
  cbn. destruct (n >=? lo), (n <=? hi); reflexivity.
Qed.

(** What [vol.Coerce(int)] lets through is the value of [int(v)]. *)
Lemma Coerce_int_valid (v : PyValue) :
  match Coerce_int v with
  | Valid v' => Some v'
  | Rejected _ | Uncaught _ => None
  end = PyInt <$> py_int v.
Proof.
  unfold Coerce_int, py_int. destruct (int_call v) as [n|[]]; reflexivity.
Qed.

Lemma All_Coerce_Range_valid (lo hi : Z) (v : PyValue) :
  (exists v', All [Coerce_int; Range lo hi] v = Valid v')
  <-> (exists n, py_int v = Some n /\ lo <= n <= hi).
Proof.
  rewrite All_Coerce_Range.
  destruct (py_int v) as [n|].
  - destruct (Z.geb_spec n lo) as [Hlo|Hlo]; cbn [negb].
    + destruct (Z.leb_spec n hi) as [Hhi|Hhi]; cbn [negb].
      * split; intros _;
          [exists n; split; [reflexivity | lia] | exists (PyInt n); reflexivity].
      * split; [intros [v' H]; discriminate |].
        intros [m [H ?]]. injection H as <-. lia.
    + split; [intros [v' H]; discriminate |].
      intros [m [H ?]]. injection H as <-. lia.
  - split; [|intros [n [H _]]; discriminate].
    intros [v' H]. destruct (int_call v) as [?|[]]; discriminate.
Qed.

(** A scheme accepts the data exactly when it accepts every entry. *)
Lemma Schema_accepts (scheme : gmap string Validator) (data : gmap string PyValue) :
  is_Some (Schema scheme data)
  <-> (forall k v, data !! k = Some v -> is_Some (validate_item scheme k v)).
Proof.
  unfold Schema. case_decide as H; split.
  - intros _. exact H.
  - intros _. eexists. reflexivity.
  - intros [x Hx]. discriminate.
  - intros H'. contradiction.
Qed.

(** Data with a single entry. *)
Lemma Schema_singleton (scheme : gmap string Validator) (k : string) (v : PyValue) :
  Schema scheme {[k := v]} =
  match validate_item scheme k v with
  | Some v' => Some {[k := v']}
  | None => None
  end.
Proof.
  unfold Schema. destruct (validate_item scheme k v) as [v'|] eqn:E.
  - rewrite decide_True.
    + rewrite <- insert_empty, (map_imap_insert_Some _ _ _ _ v') by exact E.
      rewrite map_imap_empty, insert_empty. reflexivity.
    + apply map_Forall_singleton. rewrite E. eexists. reflexivity.
  - rewrite decide_False; [reflexivity|].
    intros H. apply map_Forall_singleton in H. rewrite E in H.
    destruct H as [x Hx]. discriminate.
Qed.

Section LandxcapeFacts.

Variables ATTR_RAINDELAY ATTR_TIMEEXTENSION
          ATTR_MULTIZONE_DISTANCES ATTR_MULTIZONE_PROBABILITIES : string.

Hypothesis keys_distinct :
  NoDup [ATTR_RAINDELAY; ATTR_TIMEEXTENSION;
         ATTR_MULTIZONE_DISTANCES; ATTR_MULTIZONE_PROBABILITIES].

Abbreviation scheme_dict :=
  (CONFIG_SCHEME_dict ATTR_RAINDELAY ATTR_TIMEEXTENSION
     ATTR_MULTIZONE_DISTANCES ATTR_MULTIZONE_PROBABILITIES).

Abbreviation scheme :=
  (CONFIG_SCHEME ATTR_RAINDELAY ATTR_TIMEEXTENSION
     ATTR_MULTIZONE_DISTANCES ATTR_MULTIZONE_PROBABILITIES).

Lemma scheme_raindelay :
  scheme_dict !! ATTR_RAINDELAY = Some (All [Coerce_int; Range 0 300]).
Proof.
  unfold CONFIG_SCHEME_dict.
  pose proof keys_distinct as Hkeys.
  apply NoDup_cons in Hkeys as [Hnotin _].
  do 3 (rewrite lookup_insert_ne
          by (intros E; apply Hnotin; rewrite <- E; set_solver)).
  apply lookup_insert_eq.
Qed.

Lemma scheme_timeextension :
  scheme_dict !! ATTR_TIMEEXTENSION = Some (All [Coerce_int; Range (-100) 100]).
Proof.
  unfold CONFIG_SCHEME_dict.
  pose proof keys_distinct as Hkeys.
  apply NoDup_cons in Hkeys as [_ Hrest].
  apply NoDup_cons in Hrest as [Hnotin _].
  do 2 (rewrite lookup_insert_ne
          by (intros E; apply Hnotin; rewrite <- E; set_solver)).
  apply lookup_insert_eq.
Qed.

Lemma scheme_single_raindelay (v : PyValue) :
  scheme {[ATTR_RAINDELAY := v]} =
  match py_int v with
  | Some n =>
      if (0 <=? n) && (n <=? 300) then Some {[ATTR_RAINDELAY := PyInt n]} else None
  | None => None
  end.
Proof.
  unfold CONFIG_SCHEME. rewrite Schema_singleton.
  unfold validate_item. rewrite scheme_raindelay, All_Coerce_Range.
  destruct (py_int v) as [n|]; [|destruct (int_call v) as [?|[]]; reflexivity].
  rewrite Z.geb_leb. destruct (0 <=? n), (n <=? 300); reflexivity.
Qed.

Lemma scheme_single_timeextension (v : PyValue) :
  scheme {[ATTR_TIMEEXTENSION := v]} =
  match py_int v with
  | Some n =>
      if (-100 <=? n) && (n <=? 100)
      then Some {[ATTR_TIMEEXTENSION := PyInt n]} else None
  | None => None
  end.
Proof.
  unfold CONFIG_SCHEME. rewrite Schema_singleton.
  unfold validate_item. rewrite scheme_timeextension, All_Coerce_Range.
  destruct (py_int v) as [n|]; [|destruct (int_call v) as [?|[]]; reflexivity].
  rewrite Z.geb_leb. destruct (-100 <=? n), (n <=? 100); reflexivity.
Qed.

Ltac range_iff v lo hi :=
  destruct (py_int v) as [?n|];
  [ destruct (Z.leb_spec lo n), (Z.leb_spec n hi); cbn [andb]; split;
    try (intros [?x ?Hx]; discriminate);
    try (intros [?m [?Hm ?]]; injection Hm as <-; lia);
    try (intros _; exists n; split; [reflexivity | lia]);
    try (intros _; eexists; reflexivity)
  | split; [intros [?x ?Hx]; discriminate | intros [?n [?H _]]; discriminate] ].

(** C9 (amended): for a value that is [None], a [bool], an [int], a
    [float] or an ASCII string, the scheme accepts it as rain-delay
    exactly when [int(value)] succeeds and gives an integer in [0,300],
    and as time-extension exactly when [int(value)] succeeds and gives an
    integer in [-100,100]; for values that are integers this is: exactly
    when the value lies in the range.  It accepts rain-delay 300 and
    rejects 301, accepts time-extension 100 and -100 and rejects 101; and
    no data whose rain-delay or time-extension coerces to a number outside
    its range is accepted, whatever else the data holds. *)
Theorem CONFIG_SCHEME_ranges (v : PyValue) :
  ascii_value v = true ->
  (is_Some (scheme {[ATTR_RAINDELAY := v]})
   <-> exists n, py_int v = Some n /\ 0 <= n <= 300)
  /\ (is_Some (scheme {[ATTR_TIMEEXTENSION := v]})
      <-> exists n, py_int v = Some n /\ -100 <= n <= 100)
  /\ (forall n, is_Some (scheme {[ATTR_RAINDELAY := PyInt n]}) <-> 0 <= n <= 300)
  /\ (forall n, is_Some (scheme {[ATTR_TIMEEXTENSION := PyInt n]}) <-> -100 <= n <= 100)
  /\ (forall data,
        is_Some (scheme data) ->
        (data !! ATTR_RAINDELAY = Some v ->
         exists n, py_int v = Some n /\ 0 <= n <= 300)
        /\ (data !! ATTR_TIMEEXTENSION = Some v ->
            exists n, py_int v = Some n /\ -100 <= n <= 100))
  /\ scheme {[ATTR_RAINDELAY := PyInt 300]} = Some {[ATTR_RAINDELAY := PyInt 300]}
  /\ scheme {[ATTR_RAINDELAY := PyInt 301]} = None
  /\ scheme {[ATTR_TIMEEXTENSION := PyInt 100]}
     = Some {[ATTR_TIMEEXTENSION := PyInt 100]}
  /\ scheme {[ATTR_TIMEEXTENSION := PyInt (-100)]}
     = Some {[ATTR_TIMEEXTENSION := PyInt (-100)]}
  /\ scheme {[ATTR_TIMEEXTENSION := PyInt 101]} = None.
Proof.
  intros _.
  split; [rewrite scheme_single_raindelay; range_iff v 0 300|].
  split; [rewrite scheme_single_timeextension; range_iff v (-100) 100|].
  split.
  { intros n. rewrite scheme_single_raindelay. unfold py_int. cbn [int_call].
    destruct (Z.leb_spec 0 n), (Z.leb_spec n 300); cbn [andb]; split;
      try (intros [x Hx]; discriminate); try lia; intros _; eexists; reflexivity. }
  split.
  { intros n. rewrite scheme_single_timeextension. unfold py_int. cbn [int_call].
    destruct (Z.leb_spec (-100) n), (Z.leb_spec n 100); cbn [andb]; split;
      try (intros [x Hx]; discriminate); try lia; intros _; eexists; reflexivity. }
  split.
  { intros data Hok. unfold CONFIG_SCHEME in Hok.
    pose proof (proj1 (Schema_accepts _ _) Hok) as Hall. clear Hok.
    rename Hall into Hok. split; intros Hv.
    - specialize (Hok _ _ Hv). unfold validate_item in Hok.
      rewrite scheme_raindelay in Hok.
      apply All_Coerce_Range_valid.
      destruct (All _ v) as [v'|e|e]; [exists v'; reflexivity|..];
        destruct Hok as [x Hx]; discriminate.
    - specialize (Hok _ _ Hv). unfold validate_item in Hok.
      rewrite scheme_timeextension in Hok.
      apply All_Coerce_Range_valid.
      destruct (All _ v) as [v'|e|e]; [exists v'; reflexivity|..];
        destruct Hok as [x Hx]; discriminate. }
  rewrite !scheme_single_raindelay, !scheme_single_timeextension.
  repeat split.
Qed.

End LandxcapeFacts.

(** The attribute names of the example are four different strings. *)
Lemma example_keys_distinct :
  NoDup ["raindelay"; "timeextension"; "multizone_distances"; "multizone_probabilities"].
Proof.
  repeat (apply NoDup_cons_2;
          [intros H; repeat (apply elem_of_cons in H as [H|H]; [discriminate|]);
           inversion H |]).
  apply NoDup_nil_2.
Qed.

Lemma CONFIG_SCHEME_ranges_witness :
  NoDup ["raindelay"; "timeextension"; "multizone_distances"; "multizone_probabilities"]
  /\ ascii_value (PyStr " 120 ") = true
  /\ (is_Some
        (CONFIG_SCHEME "raindelay" "timeextension"
           "multizone_distances" "multizone_probabilities"
           {[ "raindelay" := PyStr " 120 " ]})
      <-> exists n, py_int (PyStr " 120 ") = Some n /\ 0 <= n <= 300).
Proof.
  split; [exact example_keys_distinct|].
  split; [reflexivity|].
  exact (proj1 (CONFIG_SCHEME_ranges "raindelay" "timeextension"
                  "multizone_distances" "multizone_probabilities"
                  example_keys_distinct (PyStr " 120 ") eq_refl)).
Defined.

(** C9, as stated, fails: the string "300" is no integer, and the scheme
    accepts it as a rain-delay, handing on the integer 300; so it does
    with the float 300.9, which is cut off to 300. *)
Lemma CONFIG_SCHEME_coerces_strings :
  is_int (PyStr "300") = false
  /\ All [Coerce_int; Range 0 300] (PyStr "300") = Valid (PyInt 300)
  /\ CONFIG_SCHEME "raindelay" "timeextension"
       "multizone_distances" "multizone_probabilities"
       {[ "raindelay" := PyStr "300" ]}
     = Some {[ "raindelay" := PyInt 300 ]}
  /\ is_int (PyFloat float_300_9) = false
  /\ CONFIG_SCHEME "raindelay" "timeextension"
       "multizone_distances" "multizone_probabilities"
       {[ "raindelay" := PyFloat float_300_9 ]}
     = Some {[ "raindelay" := PyInt 300 ]}.
Proof.
  split; [reflexivity|]. split; [reflexivity|].
  split; [vm_compute; reflexivity|].
  split; [reflexivity|]. vm_compute. reflexivity.
Qed.

(** What [int] takes of a text and what it refuses: blanks around the
    number, a sign, single underscores between digits; no separator
    characters 0x1c to 0x1f, no doubled or outer underscore, no blank
    after the sign, and no more than [INT_MAX_STR_DIGITS] digits. *)
Lemma int_of_str_examples :
  int_of_str " +1_0 " = Some 10
  /\ int_of_str "-0012" = Some (-12)
  /\ int_of_str (String (ascii_of_nat 9) (String "1" (String "2"
        (String (ascii_of_nat 11) (String (ascii_of_nat 12) ""))))) = Some 12
  /\ int_of_str (String (ascii_of_nat 31) "12") = None
  /\ int_of_str "_1" = None
  /\ int_of_str "1_" = None
  /\ int_of_str "1__0" = None
  /\ int_of_str "- 1" = None
  /\ int_of_str "+" = None
  /\ int_of_str "" = None
  /\ int_of_str "1.0" = None
  /\ int_of_str (string_of_list_ascii (repeat "0"%char 4300)) = Some 0
  /\ int_of_str (string_of_list_ascii (repeat "0"%char 4301)) = None
  /\ int_of_str (string_of_list_ascii ("1"%char :: repeat "0"%char 4300)) = None.
Proof. vm_compute. repeat split. Qed.

(** [int] of a float cuts towards zero; it has no value for nan and for
    the infinities, and the [OverflowError] of the latter goes through
    [vol.Coerce]. *)
Lemma int_of_float_examples :
  py_int (PyFloat float_300_9) = Some 300
  /\ py_int (PyFloat (S754_finite true 7072058789855232 (-46))) = Some (-100)
  /\ py_int (PyFloat (S754_finite true 1 (-1))) = Some 0
  /\ py_int (PyFloat (S754_zero true)) = Some 0
  /\ Coerce_int (PyFloat S754_nan) = Rejected (CoerceInvalid "expected int")
  /\ Coerce_int (PyFloat (S754_infinity false)) = Uncaught PyOverflowError
  /\ Coerce_int PyNone = Rejected (CoerceInvalid "expected int")
  /\ Range 0 300 (PyFloat float_300_9)
     = Rejected (RangeInvalid "value must be at most %s" (Some 300))
  /\ Range 0 301 (PyFloat float_300_9) = Valid (PyFloat float_300_9)
  /\ Range 0 300 (PyFloat S754_nan)
     = Rejected (RangeInvalid "value must be at least %s" (Some 0)).
Proof. vm_compute. repeat split. Qed.

(* ===================================================================== *)
(** * Further properties of the feature resolver *)
(* ===================================================================== *)

Section ResolverAlgebra.

Variable LFS : LandroidFeatureSupport.t.

Lemma true_check_bits_by_capability (caps : Capability) :
  true_check_bits LFS caps =
  Z.lor
    (Z.lor
       (Z.lor
          (if check caps DeviceCapability.PARTY_MODE
           then capability_bit LFS DeviceCapability.PARTY_MODE else 0)
          (if check caps DeviceCapability.ONE_TIME_SCHEDULE
           then capability_bit LFS DeviceCapability.ONE_TIME_SCHEDULE else 0))
       (if check caps DeviceCapability.EDGE_CUT
        then capability_bit LFS DeviceCapability.EDGE_CUT else 0))
    (if check caps DeviceCapability.TORQUE
     then capability_bit LFS DeviceCapability.TORQUE else 0).
Proof. reflexivity. Qed.

(** X1: the resolver is idempotent.  Run again on the mask it has just
    stored, or again on the same argument, with the device reporting the
    same capabilities, it stores the same mask. *)
Theorem check_features_idempotent (features : Z)
    (callback_func callback_func' : option Callable) (w : World) :
  let w1 := snd (check_features LFS features callback_func w) in
  let stored := LandroidAPI.features (self w1) in
  LandroidAPI.features (self (snd (check_features LFS stored callback_func' w1)))
    = stored
  /\ LandroidAPI.features (self (snd (check_features LFS features callback_func' w1)))
     = stored.
Proof.
  cbv zeta. rewrite !check_features_self.
  cbn [LandroidAPI.with_features LandroidAPI.features LandroidAPI.device].
  split; [|reflexivity].
  rewrite <- Z.lor_assoc, Z.lor_diag. reflexivity.
Qed.

Lemma lor_ge_l (a b : Z) : 0 <= b -> a <= Z.lor a b.
Proof.
  intros Hb.
  pose proof (Z.sub_lor_l_same_l b a) as E.
  assert (0 <= Z.land b (Z.lnot a)) by (apply Z.land_nonneg; left; exact Hb).
  lia.
Qed.

Lemma true_check_bits_nonneg (caps : Capability) :
  (forall c, 0 <= capability_bit LFS c) -> 0 <= true_check_bits LFS caps.
Proof.
  intros Hbits. rewrite true_check_bits_by_capability.
  repeat (apply Z.lor_nonneg; split);
    match goal with
    | |- 0 <= (if ?b then _ else _) => destruct b; [apply Hbits | lia]
    end.
Qed.

(** X2: when the four capability constants are not negative, the mask the
    resolver stores is, as a number, at least its argument. *)
Theorem check_features_nondecreasing (features : Z)
    (callback_func : option Callable) (w : World) :
  (forall c, 0 <= capability_bit LFS c) ->
  features
  <= LandroidAPI.features (self (snd (check_features LFS features callback_func w))).
Proof.
  intros Hbits. rewrite check_features_self.
  cbn [LandroidAPI.with_features LandroidAPI.features].
  apply lor_ge_l, true_check_bits_nonneg, Hbits.
Qed.

Lemma land_true_check_bits (caps : Capability) (c : DeviceCapability.t) :
  (forall c1 c2, c1 <> c2 ->
     Z.land (capability_bit LFS c1) (capability_bit LFS c2) = 0) ->
  Z.land (true_check_bits LFS caps) (capability_bit LFS c)
  = if check caps c then capability_bit LFS c else 0.
Proof.
  intros Hdisjoint. rewrite true_check_bits_by_capability.
  rewrite !Z.land_lor_distr_l.
  assert (Hterm : forall c',
            Z.land (if check caps c' then capability_bit LFS c' else 0)
                   (capability_bit LFS c)
            = if check caps c'
              then (if bool_decide (c' = c) then capability_bit LFS c else 0)
              else 0).
  { intros c'. destruct (check caps c'); [|apply Z.land_0_l].
    case_bool_decide as E.
    - subst c'. apply Z.land_diag.
    - apply Hdisjoint. exact E. }
  rewrite !Hterm.
  destruct c, (check caps DeviceCapability.PARTY_MODE),
              (check caps DeviceCapability.ONE_TIME_SCHEDULE),
              (check caps DeviceCapability.EDGE_CUT),
              (check caps DeviceCapability.TORQUE);
    cbn; rewrite ?Z.lor_0_r; reflexivity.
Qed.

(** X3: when the four capability constants are non-zero, share no bit with
    one another and none with the argument, the stored mask tells the
    capabilities apart: the test [stored & bit == bit] is true exactly for
    the capabilities whose check was true. *)
Theorem check_features_reads_back (features : Z)
    (callback_func : option Callable) (w : World) (c : DeviceCapability.t) :
  (forall c0, capability_bit LFS c0 <> 0) ->
  (forall c1 c2, c1 <> c2 ->
     Z.land (capability_bit LFS c1) (capability_bit LFS c2) = 0) ->
  (forall c0, Z.land features (capability_bit LFS c0) = 0) ->
  Z.eqb
    (Z.land
       (LandroidAPI.features (self (snd (check_features LFS features callback_func w))))
       (capability_bit LFS c))
    (capability_bit LFS c)
  = check (capabilities (LandroidAPI.device (self w))) c.
Proof.
  intros Hnonzero Hdisjoint Hfresh. rewrite check_features_self.
  cbn [LandroidAPI.with_features LandroidAPI.features].
  rewrite Z.land_lor_distr_l, Hfresh, Z.lor_0_l.
  rewrite land_true_check_bits by exact Hdisjoint.
  destruct (check _ c).
  - apply Z.eqb_refl.
  - apply Z.eqb_neq. intros E. apply (Hnonzero c). symmetry. exact E.
Qed.

(** X4: when the four capability constants are non-zero, the resolver
    stores the mask 0 exactly when its argument is 0 and no capability
    check is true; this is the one case in which the gate's test on the
    mask fails after the resolver has run. *)
Theorem check_features_zero_iff (features : Z)
    (callback_func : option Callable) (w : World) :
  (forall c, capability_bit LFS c <> 0) ->
  LandroidAPI.features (self (snd (check_features LFS features callback_func w))) = 0
  <-> features = 0
      /\ forall c, check (capabilities (LandroidAPI.device (self w))) c = false.
Proof.
  intros Hnonzero. rewrite check_features_self.
  cbn [LandroidAPI.with_features LandroidAPI.features].
  rewrite Z.lor_eq_0_iff, true_check_bits_by_capability, !Z.lor_eq_0_iff.
  pose proof (Hnonzero DeviceCapability.PARTY_MODE).
  pose proof (Hnonzero DeviceCapability.ONE_TIME_SCHEDULE).
  pose proof (Hnonzero DeviceCapability.EDGE_CUT).
  pose proof (Hnonzero DeviceCapability.TORQUE).
  split.
  - intros (Hf & ((Hp & Ho) & He) & Ht). split; [exact Hf|].
    intros c.
    destruct c;
      match goal with
      | |- ?b = false => destruct b; [contradiction | reflexivity]
      end.
  - intros (Hf & Hc). split; [exact Hf|].
    rewrite !Hc. repeat split.
Qed.


End ResolverAlgebra.

Lemma check_features_nondecreasing_witness :
  255 <= LandroidAPI.features
           (self (snd (check_features spec_feature_bits 255 None
                         (fresh (example_api (all_capabilities true)))))).
Proof.
  apply (check_features_nondecreasing spec_feature_bits 255 None
           (fresh (example_api (all_capabilities true)))).
  intros []; cbn; lia.
Defined.

Lemma spec_feature_bits_disjoint (c1 c2 : DeviceCapability.t) :
  c1 <> c2 ->
  Z.land (capability_bit spec_feature_bits c1) (capability_bit spec_feature_bits c2) = 0.
Proof. destruct c1, c2; intros H; try reflexivity; contradiction. Qed.

Lemma spec_feature_bits_nonzero (c : DeviceCapability.t) :
  capability_bit spec_feature_bits c <> 0.
Proof. destruct c; discriminate. Qed.

Lemma check_features_reads_back_witness :
  Z.eqb
    (Z.land
       (LandroidAPI.features
          (self (snd (check_features spec_feature_bits 255 None
                        (fresh (example_api (all_capabilities true)))))))
       (capability_bit spec_feature_bits DeviceCapability.EDGE_CUT))
    (capability_bit spec_feature_bits DeviceCapability.EDGE_CUT)
  = check (capabilities
             (LandroidAPI.device (self (fresh (example_api (all_capabilities true))))))
          DeviceCapability.EDGE_CUT.
Proof.
  apply (check_features_reads_back spec_feature_bits 255 None
           (fresh (example_api (all_capabilities true))) DeviceCapability.EDGE_CUT).
  - exact spec_feature_bits_nonzero.
  - exact spec_feature_bits_disjoint.
  - intros []; reflexivity.
Defined.

Lemma check_features_zero_iff_witness :
  LandroidAPI.features
    (self (snd (check_features spec_feature_bits 0 None
                  (fresh (example_api (no_capabilities true)))))) = 0
  <-> 0 = 0
      /\ forall c,
           check (capabilities
                    (LandroidAPI.device (self (fresh (example_api (no_capabilities true))))))
                 c = false.
Proof.
  apply (check_features_zero_iff spec_feature_bits 0 None
           (fresh (example_api (no_capabilities true)))).
  exact spec_feature_bits_nonzero.
Defined.


(* ===================================================================== *)
(** * Further properties of the readiness gate *)
(* ===================================================================== *)

Section GateEdges.

Variable clock : nat -> Z.

(** While no reading is past the deadline the loop keeps turning: it uses
    up whatever fuel it is given, one reading per turn. *)
Lemma wait_loop_stalled (timeout_at : Z) (fuel : nat) :
  forall w : World,
    LandroidAPI.features_loaded (self w) = false ->
    (forall k, clock (now_calls w + k) <= timeout_at) ->
    wait_loop clock fuel timeout_at w
    = (OutOfFuel, set_now_calls (now_calls w + fuel) w).
Proof.
  induction fuel as [|fuel IH]; intros w Hl Hstall.
  - cbn [wait_loop]. run_monad. rewrite Hl. cbn [negb].
    unfold out_of_fuel. rewrite Nat.add_0_r. destruct w; reflexivity.
  - rewrite wait_loop_step by exact Hl.
    specialize (Hstall O) as H0. rewrite Nat.add_0_r in H0.
    replace (clock (now_calls w) >? timeout_at) with false
      by (symmetry; rewrite Z.gtb_ltb; apply Z.ltb_ge; exact H0).
    rewrite IH.
    + cbn [set_now_calls now_calls self trace pending].
      replace (S (now_calls w) + fuel)%nat with (now_calls w + S fuel)%nat by lia.
      reflexivity.
    + exact Hl.
    + intros k. cbn [set_now_calls now_calls].
      replace (S (now_calls w) + k)%nat with (now_calls w + S k)%nat by lia.
      apply Hstall.
Qed.

(** X6: the gate needs the clock to move.  With the features-loaded flag
    unset, a deadline that [datetime] can hold and a clock whose readings
    never get past the deadline, the loop never ends: whatever the number
    of turns allowed, all of them are used and neither the error nor
    [set_eventloop] is reached. *)
Theorem async_await_features_stalled_clock
    (fuel : nat) (timeout timeout_at : Z) (w : World) :
  LandroidAPI.features_loaded (self w) = false ->
  deadline (clock (now_calls w)) timeout = Some timeout_at ->
  (forall k, clock (S (now_calls w) + k) <= timeout_at) ->
  async_await_features clock fuel timeout w
  = (OutOfFuel, set_now_calls (S (now_calls w) + fuel) w).
Proof.
  intros Hl Hd Hstall. rewrite async_await_features_unfold, Hd.
  unfold after_deadline.
  rewrite wait_loop_stalled; [reflexivity | exact Hl | exact Hstall].
Qed.

(** X7: a negative timeout puts the deadline before the call.  Where that
    deadline is still a point in time [datetime] can hold, with the flag
    unset and a clock that does not run backwards, the loop body runs
    once, and the error is raised after two readings of the clock. *)
Theorem async_await_features_negative_timeout
    (fuel : nat) (timeout timeout_at : Z) (w : World) :
  timeout < 0 ->
  deadline (clock (now_calls w)) timeout = Some timeout_at ->
  clock (now_calls w) <= clock (S (now_calls w)) ->
  LandroidAPI.features_loaded (self w) = false ->
  async_await_features clock (S fuel) timeout w
  = (Raised (ValueError (ready (capabilities (LandroidAPI.device (self w))))
                        false
                        (LandroidAPI.features (self w))),
     set_now_calls (now_calls w + 2) w).
Proof.
  intros Hneg Hd Hmono Hl. rewrite async_await_features_unfold, Hd.
  apply deadline_Some in Hd as [-> _].
  unfold after_deadline.
  rewrite wait_loop_step by exact Hl.
  cbn [set_now_calls now_calls self trace pending].
  replace (clock (S (now_calls w)) >? clock (now_calls w) + 1000000 * timeout)
    with true
    by (symmetry; apply Z.gtb_lt; lia).
  match goal with
  | |- context [after_wait ?W] =>
      destruct (after_wait_cases W) as [(_ & Hl' & _) | (_ & E)]
  end; cbn [set_now_calls now_calls self trace pending] in *.
  - congruence.
  - rewrite E, Hl. replace (now_calls w + 2)%nat with (S (S (now_calls w))) by lia.
    reflexivity.
Qed.

(** When the gate returns, the three conditions held and the world is the
    one with the loop bound to the transport. *)
Lemma async_await_features_returned (fuel : nat) (timeout : Z) (w : World) :
  fst (async_await_features clock fuel timeout w) = Returned tt ->
  ready (capabilities (LandroidAPI.device (self w))) = true
  /\ LandroidAPI.features_loaded (self w) = true
  /\ LandroidAPI.features (self w) <> 0
  /\ snd (async_await_features clock fuel timeout w)
     = {| self := LandroidAPI.with_device
                    (set_eventloop (LandroidAPI.hass_loop (self w))
                       (LandroidAPI.device (self w)))
                    (self w);
          trace := trace w ++ [EvSetEventloop (LandroidAPI.hass_loop (self w))];
          now_calls := S (now_calls w);
          pending := pending w |}.
Proof.
  intros Hret.
  destruct (LandroidAPI.features_loaded (self w)) eqn:Hl.
  - rewrite async_await_features_unfold in *.
    destruct (deadline (clock (now_calls w)) timeout) as [timeout_at|];
      [|discriminate].
    unfold after_deadline in *.
    rewrite wait_loop_loaded in * by exact Hl.
    destruct (after_wait_cases (set_now_calls (S (now_calls w)) w))
      as [(Hr & _ & Hz & E) | (_ & E)];
      rewrite E in *; cbn [fst snd set_now_calls now_calls self trace pending] in *.
    + auto.
    + discriminate.
  - exfalso. exact (gate_needs_flag clock fuel timeout w Hl Hret).
Qed.

End GateEdges.

(** X8: the gate can be passed again.  Once [async_await_features] has
    returned, every later call, whatever its clock and its timeout as long
    as they give a deadline [datetime] can hold, returns at once and
    leaves the adapter as the first call left it: the transport stays
    bound to the same loop. *)
Theorem async_await_features_repeatable
    (clock clock' : nat -> Z) (fuel fuel' : nat)
    (timeout timeout' timeout_at' : Z) (w : World) :
  fst (async_await_features clock fuel timeout w) = Returned tt ->
  let w1 := snd (async_await_features clock fuel timeout w) in
  deadline (clock' (now_calls w1)) timeout' = Some timeout_at' ->
  async_await_features clock' fuel' timeout' w1
  = (Returned tt,
     {| self := self w1;
        trace := trace w1 ++ [EvSetEventloop (LandroidAPI.hass_loop (self w))];
        now_calls := S (now_calls w1);
        pending := pending w1 |}).
Proof.
  intros Hret. cbv zeta.
  destruct (async_await_features_returned clock fuel timeout w Hret)
    as (Hr & Hl & Hz & ->).
  intros Hd.
  rewrite async_await_features_unfold, Hd. unfold after_deadline.
  cbn [set_now_calls now_calls self trace pending].
  rewrite wait_loop_loaded by exact Hl.
  match goal with
  | |- context [after_wait ?W] =>
      destruct (after_wait_cases W) as [(_ & _ & _ & E) | ([Hc | [Hc | Hc]] & _)]
  end.
  - rewrite E. reflexivity.
  - cbn in Hc. congruence.
  - cbn in Hc. congruence.
  - cbn in Hc. contradiction.
Qed.

Lemma async_await_features_stalled_clock_witness :
  async_await_features frozen_clock 7 10 (fresh (example_api (all_capabilities true)))
  = (OutOfFuel,
     set_now_calls (S (now_calls (fresh (example_api (all_capabilities true)))) + 7)
       (fresh (example_api (all_capabilities true)))).
Proof.
  apply (async_await_features_stalled_clock frozen_clock 7 10
           (frozen_clock 0 + 10000000)
           (fresh (example_api (all_capabilities true)))).
  - reflexivity.
  - reflexivity.
  - intros k. unfold frozen_clock. lia.
Defined.

Lemma async_await_features_negative_timeout_witness :
  async_await_features second_clock 1 (-5)
    (set_now_calls 10 (fresh (example_api (all_capabilities true))))
  = (Raised (ValueError
               (ready (capabilities
                         (LandroidAPI.device
                            (self (fresh (example_api (all_capabilities true)))))))
               false
               (LandroidAPI.features (self (fresh (example_api (all_capabilities true)))))),
     set_now_calls 12 (fresh (example_api (all_capabilities true)))).
Proof.
  apply (async_await_features_negative_timeout second_clock 0 (-5) 5000000
           (set_now_calls 10 (fresh (example_api (all_capabilities true))))).
  - lia.
  - reflexivity.
  - vm_compute. discriminate.
  - reflexivity.
Defined.

Lemma async_await_features_repeatable_witness :
  let w :=
    snd (check_features spec_feature_bits 255 None
           (fresh (LandroidAPI.with_features_loaded true
                     (example_api (all_capabilities true))))) in
  let w1 := snd (async_await_features second_clock 0 10 w) in
  async_await_features frozen_clock 3 0 w1
  = (Returned tt,
     {| self := self w1;
        trace := trace w1 ++ [EvSetEventloop (LandroidAPI.hass_loop (self w))];
        now_calls := S (now_calls w1);
        pending := pending w1 |}).
Proof.
  cbv zeta.
  apply (async_await_features_repeatable second_clock frozen_clock 0 3 10 0
           (frozen_clock 0)
           (snd (check_features spec_feature_bits 255 None
                   (fresh (LandroidAPI.with_features_loaded true
                             (example_api (all_capabilities true))))))).
  - vm_compute. reflexivity.
  - reflexivity.
Defined.

(* ===================================================================== *)
(** * The adapter over its lifetime *)
(* ===================================================================== *)

Section Lifetime.

Variable LFS : LandroidFeatureSupport.t.
Variable UPDATE_SIGNAL : string.
Variable clock : nat -> Z.

(** The gate leaves the adapter alone or binds the loop, nothing else. *)
Lemma async_await_features_self (fuel : nat) (timeout : Z) (w : World) :
  self (snd (async_await_features clock fuel timeout w)) = self w
  \/ self (snd (async_await_features clock fuel timeout w))
     = LandroidAPI.with_device
         (set_eventloop (LandroidAPI.hass_loop (self w)) (LandroidAPI.device (self w)))
         (self w).
Proof.
  rewrite async_await_features_unfold.
  destruct (deadline (clock (now_calls w)) timeout) as [timeout_at|];
    [|left; reflexivity].
  unfold after_deadline.
  destruct (wait_loop_shape clock fuel timeout_at
              (set_now_calls (S (now_calls w)) w)) as (n & _ & Hs & _).
  destruct (wait_loop clock fuel _ _) as [o w2].
  cbn [snd] in Hs. subst w2.
  destruct o as [[]|e|]; cbv beta iota; [|left; reflexivity..].
  destruct (after_wait_cases (set_now_calls n (set_now_calls (S (now_calls w)) w)))
    as [(_ & _ & _ & E) | (_ & E)]; rewrite E; [right | left]; reflexivity.
Qed.

Lemma call_method_keeps (m : MethodCall) (w : World) :
  let w' := call_method LFS UPDATE_SIGNAL clock m w in
  LandroidAPI.features_loaded (self w') = LandroidAPI.features_loaded (self w)
  /\ LandroidAPI.name (self w') = LandroidAPI.name (self w)
  /\ LandroidAPI.callbacks (self w') = LandroidAPI.callbacks (self w)
  /\ capabilities (LandroidAPI.device (self w'))
     = capabilities (LandroidAPI.device (self w))
  /\ pending w' = pending w.
Proof.
  cbv zeta. destruct m as [features cb | name device | fuel timeout];
    cbn [call_method].
  - rewrite check_features_run. repeat split.
  - rewrite receive_data_run. repeat split.
  - destruct (async_await_features_never_suspends clock fuel timeout w) as [_ Hp].
    destruct (async_await_features_self fuel timeout w) as [E | E];
      rewrite E; repeat split; exact Hp.
Qed.

Lemma methods_keep_flag_aux (ms : list MethodCall) (w : World) :
  LandroidAPI.features_loaded (self (call_methods LFS UPDATE_SIGNAL clock ms w))
  = LandroidAPI.features_loaded (self w).
Proof.
  revert w. induction ms as [|m ms IH]; intros w; [reflexivity|].
  cbn [call_methods fold_left].
  fold (call_methods LFS UPDATE_SIGNAL clock ms (call_method LFS UPDATE_SIGNAL clock m w)).
  rewrite IH. apply call_method_keeps.
Qed.

(** X9: no method of the adapter sets or clears the features-loaded flag.
    Through any sequence of calls of [check_features], [receive_data] and
    [async_await_features] the flag, the name, the registered callbacks and
    the device's capability report stay as they were, and no task that was
    waiting on the loop gets to run. *)
Theorem methods_keep_flag (ms : list MethodCall) (w : World) :
  let w' := call_methods LFS UPDATE_SIGNAL clock ms w in
  LandroidAPI.features_loaded (self w') = LandroidAPI.features_loaded (self w)
  /\ LandroidAPI.name (self w') = LandroidAPI.name (self w)
  /\ LandroidAPI.callbacks (self w') = LandroidAPI.callbacks (self w)
  /\ capabilities (LandroidAPI.device (self w'))
     = capabilities (LandroidAPI.device (self w))
  /\ pending w' = pending w.
Proof.
  cbv zeta. revert w. induction ms as [|m ms IH]; intros w.
  - repeat split.
  - cbn [call_methods fold_left].
    fold (call_methods LFS UPDATE_SIGNAL clock ms (call_method LFS UPDATE_SIGNAL clock m w)).
    destruct (IH (call_method LFS UPDATE_SIGNAL clock m w)) as (H1 & H2 & H3 & H4 & H5).
    destruct (call_method_keeps m w) as (K1 & K2 & K3 & K4 & K5).
    rewrite H1, H2, H3, H4, H5. auto.
Qed.

(** X10: an adapter that [__init__] has built never passes the gate by
    its own methods: whatever calls of [check_features], [receive_data]
    and [async_await_features] come first, [async_await_features] does not
    return normally, because the flag it waits for is still unset. *)
Theorem constructed_adapter_never_passes
    (hass : HomeAssistant.t) (device_name : string) (entry : ConfigEntry.t)
    (api : LandroidAPI.t) (ms : list MethodCall)
    (clock' : nat -> Z) (fuel : nat) (timeout : Z) :
  init hass device_name entry = Some api ->
  returned
    (fst (async_await_features clock' fuel timeout
            (call_methods LFS UPDATE_SIGNAL clock ms (fresh api))))
  = false.
Proof.
  intros Hinit.
  assert (Hl : LandroidAPI.features_loaded api = false).
  { unfold init in Hinit.
    destruct (HomeAssistant.data hass !! ConfigEntry.entry_id entry) as [stored|];
      [|discriminate].
    cbn in Hinit.
    destruct (WorxCloud.devices (EntryData.ATTR_CLOUD stored) !! device_name) as [d|];
      [|discriminate].
    cbn in Hinit. injection Hinit as <-. reflexivity. }
  pose proof (gate_needs_flag clock' fuel timeout
                (call_methods LFS UPDATE_SIGNAL clock ms (fresh api))) as Hgate.
  rewrite methods_keep_flag_aux in Hgate. cbn [fresh self] in Hgate. specialize (Hgate Hl).
  destruct (fst _) as [[]|e|]; [contradiction | reflexivity | reflexivity].
Qed.

End Lifetime.

Lemma constructed_adapter_never_passes_witness :
  returned
    (fst (async_await_features second_clock 5 10
            (call_methods spec_feature_bits "landroid_cloud_state_update" second_clock
               [CallCheckFeatures 255 None;
                CallReceiveData "My Mower 1" (mower (all_capabilities true));
                CallAwaitFeatures 3 1]
               (fresh (example_api (all_capabilities true))))))
  = false.
Proof.
  apply (constructed_adapter_never_passes spec_feature_bits
           "landroid_cloud_state_update" second_clock
           (example_hass (all_capabilities true)) "My Mower 1" example_entry
           (example_api (all_capabilities true))).
  vm_compute. reflexivity.
Defined.

(* ===================================================================== *)
(** * The signal name and the adapter's name *)
(* ===================================================================== *)

Lemma append_cons (c : ascii) (a b : string) : String c a +:+ b = String c (a +:+ b).
Proof. reflexivity. Qed.

Lemma append_empty_l (a : string) : "" +:+ a = a.
Proof. reflexivity. Qed.

Lemma append_empty_r (a : string) : a +:+ "" = a.
Proof.
  induction a as [|c a IH]; [reflexivity|].
  rewrite append_cons, IH. reflexivity.
Qed.

(** A slug is no longer than its text, but for the separator that a word
    after a gap brings along. *)
Lemma slug_runs_length (s : string) :
  forall st,
    (String.length (slug_runs st s)
     <= String.length s + match st with AfterGap => 1 | _ => 0 end)%nat.
Proof.
  induction s as [|c s IH]; intros st.
  - cbn. lia.
  - cbn [slug_runs]. pose proof (IH AtStart). pose proof (IH InWord).
    pose proof (IH AfterGap).
    destruct (is_alnum c), st; cbn [String.length] in *; lia.
Qed.

(** A text that the slug pass leaves as it is, is followed by whatever
    comes next as by a word in progress. *)
Lemma slug_runs_fixed (U : string) :
  forall st,
    st <> AfterGap ->
    slug_runs st U = U ->
    U <> "" ->
    forall y, slug_runs st (U +:+ y) = U +:+ slug_runs InWord y.
Proof.
  induction U as [|c rest IH]; intros st Hst Hfix Hne y; [contradiction|].
  rewrite append_cons. cbn [slug_runs] in *.
  destruct (is_alnum c) eqn:Hc.
  - assert (Hhead : String (to_lower c) (slug_runs InWord rest) = String c rest)
      by (destruct st; [exact Hfix | exact Hfix | contradiction]).
    injection Hhead as Hc1 Hrest.
    assert (Hgoal : String (to_lower c) (slug_runs InWord (rest +:+ y))
                    = String c (rest +:+ slug_runs InWord y)).
    { rewrite Hc1. f_equal.
      destruct rest as [|d rest']; [reflexivity|].
      apply IH; [discriminate | exact Hrest | discriminate]. }
    destruct st; [exact Hgoal | exact Hgoal | contradiction].
  - destruct st; [| |contradiction].
    + exfalso. pose proof (slug_runs_length rest AtStart) as Hlen.
      rewrite Hfix in Hlen. cbn [String.length] in Hlen. lia.
    + destruct rest as [|d rest']; [discriminate|].
      cbn [slug_runs] in Hfix.
      destruct (is_alnum d) eqn:Hd.
      * injection Hfix as Hc1 Hd1 Hrest.
        assert (Hword : slug_runs InWord (String d rest') = String d rest')
          by (cbn [slug_runs]; rewrite Hd, Hd1, Hrest; reflexivity).
        pose proof (IH InWord ltac:(discriminate) Hword ltac:(discriminate) y) as Hnext.
        rewrite append_cons in *. cbn [slug_runs] in *. rewrite Hd in *.
        rewrite Hnext, <- Hc1. reflexivity.
      * exfalso. pose proof (slug_runs_length rest' AfterGap) as Hlen.
        rewrite Hfix in Hlen. cbn [String.length] in Hlen. lia.
Qed.

(** After a gap, a word brings its separator; no word, no separator. *)
Lemma slug_runs_after_gap (s : string) :
  slug_runs AfterGap s
  = if String.eqb (slug_runs AtStart s) "" then "" else "_" +:+ slug_runs AtStart s.
Proof.
  induction s as [|c s IH]; [reflexivity|].
  cbn [slug_runs]. destruct (is_alnum c); [reflexivity | exact IH].
Qed.

Lemma slug_char_not_comma (c : ascii) :
  slug_char c = true -> Ascii.eqb c "," = false.
Proof. by_ascii_cases c. Qed.

(** The number clean-up leaves a text without commas alone, and an
    underscore after it shields what follows. *)
Lemma cleanup_numbers_no_comma (U rest : string) :
  forallb slug_char (list_ascii_of_string U) = true ->
  forall prev_digit,
    cleanup_numbers prev_digit (U +:+ String "_" rest)
    = U +:+ String "_" (cleanup_numbers false rest).
Proof.
  induction U as [|c U IH]; intros Hchars prev_digit.
  - rewrite !append_empty_l. cbn [cleanup_numbers].
    change (Ascii.eqb "_" ",") with false. cbn [andb]. reflexivity.
  - cbn [list_ascii_of_string forallb] in Hchars.
    apply andb_true_iff in Hchars as [Hc HU].
    rewrite !append_cons. cbn [cleanup_numbers].
    rewrite (slug_char_not_comma c Hc). cbn [andb].
    rewrite IH by exact HU. reflexivity.
Qed.

Lemma cleanup_numbers_no_comma_id (U : string) :
  forallb slug_char (list_ascii_of_string U) = true ->
  forall prev_digit, cleanup_numbers prev_digit U = U.
Proof.
  induction U as [|c U IH]; intros Hchars prev_digit; [reflexivity|].
  cbn [list_ascii_of_string forallb] in Hchars.
  apply andb_true_iff in Hchars as [Hc HU].
  cbn [cleanup_numbers]. rewrite (slug_char_not_comma c Hc). cbn [andb].
  rewrite IH by exact HU. reflexivity.
Qed.

Lemma comma_not_alnum (c : ascii) : Ascii.eqb c "," = true -> is_alnum c = false.
Proof. by_ascii_cases c. Qed.

Lemma has_alnum_cleanup_numbers (s : string) :
  forall prev_digit,
    has_alnum (cleanup_numbers prev_digit s) = has_alnum s.
Proof.
  unfold has_alnum.
  induction s as [|c s IH]; intros prev_digit; [reflexivity|].
  cbn [cleanup_numbers].
  destruct (Ascii.eqb c "," && prev_digit && starts_with_digit s) eqn:E.
  - apply andb_true_iff in E as [E _]. apply andb_true_iff in E as [E _].
    cbn [list_ascii_of_string existsb]. rewrite (comma_not_alnum c E), IH. reflexivity.
  - cbn [list_ascii_of_string existsb]. rewrite IH. reflexivity.
Qed.

Lemma slug_runs_empty_iff (s : string) :
  forall st, String.eqb (slug_runs st s) "" = negb (has_alnum s).
Proof.
  unfold has_alnum.
  induction s as [|c s IH]; intros st; [reflexivity|].
  cbn [slug_runs list_ascii_of_string existsb].
  destruct (is_alnum c).
  - destruct st; reflexivity.
  - destruct st; apply IH.
Qed.

(** A text that [util_slugify] maps to itself is made of slug characters
    and the slug pass leaves it alone. *)
Lemma util_slugify_fixed (U : string) :
  util_slugify U = U ->
  U <> "" ->
  forallb slug_char (list_ascii_of_string U) = true
  /\ slug_runs AtStart U = U.
Proof.
  intros Hfix Hne.
  assert (Hchars : forallb slug_char (list_ascii_of_string U) = true)
    by (rewrite <- Hfix; apply util_slugify_chars).
  split; [exact Hchars|].
  unfold util_slugify in Hfix.
  rewrite (cleanup_numbers_no_comma_id U Hchars) in Hfix.
  destruct (String.eqb_spec U ""); [contradiction|].
  rewrite slug_runs_empty_iff in Hfix.
  destruct (has_alnum U) eqn:Ha; cbn [negb] in Hfix; [exact Hfix|].
  subst U. discriminate.
Qed.

(** The slug of "prefix_name" when the prefix is a slug already. *)
Lemma util_slugify_prefixed (U name : string) :
  util_slugify U = U ->
  U <> "" ->
  util_slugify (U +:+ "_" +:+ name)
  = if has_alnum name then U +:+ "_" +:+ util_slugify name else U.
Proof.
  intros Hfix Hne.
  destruct (util_slugify_fixed U Hfix Hne) as [Hchars Hruns].
  unfold util_slugify at 1.
  replace (String.eqb (U +:+ "_" +:+ name) "") with false
    by (destruct U; [contradiction | reflexivity]).
  change (U +:+ "_" +:+ name) with (U +:+ String "_" name).
  rewrite (cleanup_numbers_no_comma U name Hchars).
  rewrite (slug_runs_fixed U AtStart ltac:(discriminate) Hruns Hne).
  change (slug_runs InWord (String "_" (cleanup_numbers false name)))
    with (slug_runs AfterGap (cleanup_numbers false name)).
  rewrite slug_runs_after_gap, slug_runs_empty_iff, has_alnum_cleanup_numbers.
  destruct (has_alnum name) eqn:Ha; cbn [negb].
  - replace (String.eqb (U +:+ "_" +:+ slug_runs AtStart (cleanup_numbers false name)) "")
      with false by (destruct U; [contradiction | reflexivity]).
    unfold util_slugify.
    replace (String.eqb name "") with false
      by (destruct name; [discriminate Ha | reflexivity]).
    rewrite slug_runs_empty_iff, has_alnum_cleanup_numbers, Ha. reflexivity.
  - rewrite append_empty_r.
    destruct (String.eqb_spec U ""); [contradiction | reflexivity].
Qed.

(** X11: [receive_data] never sends an empty signal name: whatever the
    prefix and the device name are, the dispatched signal has at least one
    character (the slug of a text without letters and digits is
    "unknown"). *)
Theorem receive_data_signal_nonempty
    (UPDATE_SIGNAL name : string) (device : DeviceHandler) (w : World) :
  exists c rest,
    dispatched (trace (snd (receive_data UPDATE_SIGNAL name device w)))
    = dispatched (trace w) ++ [String c rest].
Proof.
  rewrite receive_data_run. cbv zeta. cbn [snd trace].
  rewrite dispatched_app. cbn [dispatched].
  unfold util_slugify.
  replace (String.eqb (UPDATE_SIGNAL +:+ "_" +:+ name) "") with false
    by (destruct UPDATE_SIGNAL; reflexivity).
  destruct (slug_runs AtStart _) as [|c rest].
  - exists "u"%char, "nknown". reflexivity.
  - exists c, rest. reflexivity.
Qed.

(** X12: when the update-signal prefix is a slug already and the device
    name is ASCII text without [&] that holds a letter or a digit, the
    signal that [receive_data] sends for that device is the prefix, an
    underscore and the [name] attribute that [__init__] gave the adapter
    of that device. *)
Theorem signal_is_prefix_and_adapter_name
    (UPDATE_SIGNAL device_name : string) (hass : HomeAssistant.t)
    (entry : ConfigEntry.t) (api : LandroidAPI.t)
    (device : DeviceHandler) (w : World) :
  util_slugify UPDATE_SIGNAL = UPDATE_SIGNAL ->
  UPDATE_SIGNAL <> "" ->
  plain_text device_name = true ->
  has_alnum device_name = true ->
  init hass device_name entry = Some api ->
  dispatched (trace (snd (receive_data UPDATE_SIGNAL device_name device w)))
  = dispatched (trace w) ++ [UPDATE_SIGNAL +:+ "_" +:+ LandroidAPI.name api].
Proof.
  intros Hfix Hne _ Ha Hinit.
  assert (Hname : LandroidAPI.name api = util_slugify device_name).
  { unfold init in Hinit.
    destruct (HomeAssistant.data hass !! ConfigEntry.entry_id entry) as [stored|];
      [|discriminate].
    cbn in Hinit.
    destruct (WorxCloud.devices (EntryData.ATTR_CLOUD stored) !! device_name) as [d|];
      [|discriminate].
    cbn in Hinit. injection Hinit as <-. reflexivity. }
  rewrite receive_data_run. cbv zeta. cbn [snd trace].
  rewrite dispatched_app. cbn [dispatched].
  rewrite (util_slugify_prefixed UPDATE_SIGNAL device_name Hfix Hne), Ha, Hname.
  reflexivity.
Qed.

(** X13: when the prefix is a slug already and the device name is ASCII
    text that holds no letter and no digit, [receive_data] sends the bare
    prefix: all such devices share one signal. *)
Theorem signal_of_name_without_alnum
    (UPDATE_SIGNAL name : string) (device : DeviceHandler) (w : World) :
  util_slugify UPDATE_SIGNAL = UPDATE_SIGNAL ->
  UPDATE_SIGNAL <> "" ->
  isascii name = true ->
  has_alnum name = false ->
  dispatched (trace (snd (receive_data UPDATE_SIGNAL name device w)))
  = dispatched (trace w) ++ [UPDATE_SIGNAL].
Proof.
  intros Hfix Hne _ Ha.
  rewrite receive_data_run. cbv zeta. cbn [snd trace].
  rewrite dispatched_app. cbn [dispatched].
  rewrite (util_slugify_prefixed UPDATE_SIGNAL name Hfix Hne), Ha.
  reflexivity.
Qed.

Lemma signal_is_prefix_and_adapter_name_witness :
  dispatched
    (trace (snd (receive_data "landroid_cloud_state_update" "My Mower 1"
                   (mower (all_capabilities true))
                   (fresh (example_api (all_capabilities true))))))
  = dispatched (trace (fresh (example_api (all_capabilities true))))
    ++ ["landroid_cloud_state_update" +:+ "_"
        +:+ LandroidAPI.name (example_api (all_capabilities true))].
Proof.
  apply (signal_is_prefix_and_adapter_name "landroid_cloud_state_update" "My Mower 1"
           (example_hass (all_capabilities true)) example_entry
           (example_api (all_capabilities true))
           (mower (all_capabilities true))
           (fresh (example_api (all_capabilities true)))).
  - vm_compute. reflexivity.
  - discriminate.
  - reflexivity.
  - reflexivity.
  - vm_compute. reflexivity.
Defined.

Lemma signal_of_name_without_alnum_witness :
  dispatched
    (trace (snd (receive_data "landroid_cloud_state_update" "?! -"
                   (mower (all_capabilities true))
                   (fresh (example_api (all_capabilities true))))))
  = dispatched (trace (fresh (example_api (all_capabilities true))))
    ++ ["landroid_cloud_state_update"].
Proof.
  apply (signal_of_name_without_alnum "landroid_cloud_state_update" "?! -"
           (mower (all_capabilities true))
           (fresh (example_api (all_capabilities true)))).
  - vm_compute. reflexivity.
  - discriminate.
  - reflexivity.
  - reflexivity.
Defined.

(* ===================================================================== *)
(** * The configuration scheme on whole service data *)
(* ===================================================================== *)

(** What an accepted call hands back, key by key. *)
Lemma Schema_Some (scheme : gmap string Validator) (data out : gmap string PyValue) :
  Schema scheme data = Some out ->
  (forall k, out !! k = data !! k ≫= validate_item scheme k)
  /\ (forall k v, data !! k = Some v -> is_Some (validate_item scheme k v)).
Proof.
  unfold Schema. case_decide as Hall; [|discriminate].
  intros [= <-]. split.
  - intros k. apply map_lookup_imap.
  - exact Hall.
Qed.

(** A scheme whose validators accept their own output accepts its own
    output. *)
Lemma Schema_idempotent (scheme : gmap string Validator)
    (data out : gmap string PyValue) :
  (forall k v v', validate_item scheme k v = Some v' ->
                  validate_item scheme k v' = Some v') ->
  Schema scheme data = Some out ->
  Schema scheme out = Some out.
Proof.
  intros Hfix Hdata. destruct (Schema_Some _ _ _ Hdata) as [Hout _].
  assert (Hkeep : forall k v', out !! k = Some v' ->
                               validate_item scheme k v' = Some v').
  { intros k v' Hk. rewrite Hout in Hk.
    destruct (data !! k) as [v|]; [|discriminate].
    cbn in Hk. exact (Hfix _ _ _ Hk). }
  unfold Schema. rewrite decide_True.
  - f_equal. apply map_eq. intros k. rewrite map_lookup_imap.
    destruct (out !! k) as [v'|] eqn:Hk; [|reflexivity].
    cbn. exact (Hkeep _ _ Hk).
  - intros k v' Hk. rewrite (Hkeep _ _ Hk). eexists. reflexivity.
Qed.

Lemma coerced_in_Some (lo hi : Z) (v v' : PyValue) :
  coerced_in lo hi v = Some v'
  <-> exists n, py_int v = Some n /\ lo <= n <= hi /\ v' = PyInt n.
Proof.
  unfold coerced_in. destruct (py_int v) as [n|].
  - destruct (Z.leb_spec lo n), (Z.leb_spec n hi); cbn [andb]; split.
    all: try (intros [= <-]; exists n; repeat split; lia).
    all: try discriminate.
    all: intros (m & [= <-] & Hm & Hv); try lia.
    rewrite Hv. reflexivity.
  - split; [discriminate | intros (m & Hm & _); discriminate].
Qed.

Lemma only_str_Some (v v' : PyValue) :
  only_str v = Some v' <-> (exists s, v = PyStr s) /\ v' = v.
Proof.
  destruct v; cbn; (split; [intros H | intros [[s' Hs] Hv]]);
    try discriminate.
  - injection H as <-. split; [eexists|]; reflexivity.
  - rewrite Hv. reflexivity.
Qed.

Section LandxcapeWholeData.

Variables ATTR_RAINDELAY ATTR_TIMEEXTENSION
          ATTR_MULTIZONE_DISTANCES ATTR_MULTIZONE_PROBABILITIES : string.

Hypothesis keys_distinct :
  NoDup [ATTR_RAINDELAY; ATTR_TIMEEXTENSION;
         ATTR_MULTIZONE_DISTANCES; ATTR_MULTIZONE_PROBABILITIES].

Abbreviation config_dict :=
  (CONFIG_SCHEME_dict ATTR_RAINDELAY ATTR_TIMEEXTENSION
     ATTR_MULTIZONE_DISTANCES ATTR_MULTIZONE_PROBABILITIES).

Abbreviation config_scheme :=
  (CONFIG_SCHEME ATTR_RAINDELAY ATTR_TIMEEXTENSION
     ATTR_MULTIZONE_DISTANCES ATTR_MULTIZONE_PROBABILITIES).

Lemma config_keys_apart :
  ATTR_RAINDELAY <> ATTR_TIMEEXTENSION
  /\ ATTR_RAINDELAY <> ATTR_MULTIZONE_DISTANCES
  /\ ATTR_RAINDELAY <> ATTR_MULTIZONE_PROBABILITIES
  /\ ATTR_TIMEEXTENSION <> ATTR_MULTIZONE_DISTANCES
  /\ ATTR_TIMEEXTENSION <> ATTR_MULTIZONE_PROBABILITIES
  /\ ATTR_MULTIZONE_DISTANCES <> ATTR_MULTIZONE_PROBABILITIES.
Proof.
  pose proof keys_distinct as H.
  apply NoDup_cons in H as [H1 H]. apply NoDup_cons in H as [H2 H].
  apply NoDup_cons in H as [H3 _].
  apply not_elem_of_cons in H1 as [H12 H1].
  apply not_elem_of_cons in H1 as [H13 H1].
  apply not_elem_of_cons in H1 as [H14 _].
  apply not_elem_of_cons in H2 as [H23 H2].
  apply not_elem_of_cons in H2 as [H24 _].
  apply not_elem_of_cons in H3 as [H34 _].
  auto 10.
Qed.

(** The scheme on one entry, by key. *)
Lemma validate_item_config (k : string) (v : PyValue) :
  validate_item config_dict k v =
  if decide (k = ATTR_RAINDELAY) then coerced_in 0 300 v
  else if decide (k = ATTR_TIMEEXTENSION) then coerced_in (-100) 100 v
  else if decide (k = ATTR_MULTIZONE_DISTANCES \/ k = ATTR_MULTIZONE_PROBABILITIES)
       then only_str v
       else None.
Proof.
  destruct config_keys_apart as (H12 & H13 & H14 & H23 & H24 & H34).
  unfold validate_item, CONFIG_SCHEME_dict.
  rewrite !lookup_insert, lookup_empty.
  assert (Hrange : forall lo hi,
            match All [Coerce_int; Range lo hi] v with
            | Valid v' => Some v'
            | Rejected _ | Uncaught _ => None
            end = coerced_in lo hi v).
  { intros lo hi. rewrite All_Coerce_Range. unfold coerced_in.
    destruct (py_int v) as [n|]; [|destruct (int_call v) as [?|[]]; reflexivity].
    rewrite Z.geb_leb. destruct (lo <=? n), (n <=? hi); reflexivity. }
  assert (Hstr : match str v with
                 | Valid v' => Some v'
                 | Rejected _ | Uncaught _ => None
                 end = only_str v) by (destruct v; reflexivity).
  repeat case_decide; try subst k; try congruence;
    try (exfalso; intuition congruence);
    rewrite ?Hrange, ?Hstr; try reflexivity.
Qed.

(** The acceptance of the configuration scheme, entry by entry. *)
Lemma CONFIG_SCHEME_char (data : gmap string PyValue) :
  is_Some (config_scheme data)
  <-> (forall k v, data !! k = Some v ->
         (k = ATTR_RAINDELAY /\ exists n, py_int v = Some n /\ 0 <= n <= 300)
         \/ (k = ATTR_TIMEEXTENSION
             /\ exists n, py_int v = Some n /\ -100 <= n <= 100)
         \/ ((k = ATTR_MULTIZONE_DISTANCES \/ k = ATTR_MULTIZONE_PROBABILITIES)
             /\ exists s, v = PyStr s)).
Proof.
  unfold CONFIG_SCHEME. rewrite Schema_accepts.
  split; intros H k v Hkv; specialize (H k v Hkv);
    rewrite validate_item_config in *.
  - destruct H as [v' Hv']. repeat case_decide.
    + left. split; [assumption|].
      apply coerced_in_Some in Hv' as (n & Hn & Hr & _). eauto.
    + right; left. split; [assumption|].
      apply coerced_in_Some in Hv' as (n & Hn & Hr & _). eauto.
    + right; right. split; [assumption|].
      apply only_str_Some in Hv' as [Hs _]. exact Hs.
    + discriminate.
  - destruct config_keys_apart as (H12 & H13 & H14 & H23 & H24 & H34).
    destruct H as [[-> (n & Hn & Hr)] | [[-> (n & Hn & Hr)] | [Hk (s & ->)]]].
    + rewrite decide_True by reflexivity.
      exists (PyInt n). apply coerced_in_Some. eauto.
    + rewrite decide_False by congruence. rewrite decide_True by reflexivity.
      exists (PyInt n). apply coerced_in_Some. eauto.
    + rewrite decide_False by (destruct Hk; congruence).
      rewrite decide_False by (destruct Hk; congruence).
      rewrite decide_True by exact Hk.
      eexists. reflexivity.
Qed.

(** X14: the configuration scheme accepts service data, made of [None],
    [bool], [int], [float] and ASCII [str] values, exactly when every key
    it holds is one of the four attribute names and every value passes
    the validator of its key: rain-delay and time-extension coerce to an
    integer in their range, the two multi-zone fields are strings.  Data
    with any other key is refused; empty data is accepted. *)
Theorem CONFIG_SCHEME_accepts_iff (data : gmap string PyValue) :
  ascii_data data = true ->
  is_Some (config_scheme data)
  <-> (forall k v, data !! k = Some v ->
         (k = ATTR_RAINDELAY /\ exists n, py_int v = Some n /\ 0 <= n <= 300)
         \/ (k = ATTR_TIMEEXTENSION
             /\ exists n, py_int v = Some n /\ -100 <= n <= 100)
         \/ ((k = ATTR_MULTIZONE_DISTANCES \/ k = ATTR_MULTIZONE_PROBABILITIES)
             /\ exists s, v = PyStr s)).
Proof. intros _. exact (CONFIG_SCHEME_char data). Qed.

(** X15: what the configuration scheme hands back for accepted data: the
    same keys; under rain-delay and time-extension the integer that the
    given value coerces to, within the range; the multi-zone strings as
    they came. *)
Theorem CONFIG_SCHEME_output (data out : gmap string PyValue) :
  config_scheme data = Some out ->
  (forall k, is_Some (out !! k) <-> is_Some (data !! k))
  /\ (forall v, out !! ATTR_RAINDELAY = Some v ->
        exists n v0, v = PyInt n /\ 0 <= n <= 300
                     /\ data !! ATTR_RAINDELAY = Some v0 /\ py_int v0 = Some n)
  /\ (forall v, out !! ATTR_TIMEEXTENSION = Some v ->
        exists n v0, v = PyInt n /\ -100 <= n <= 100
                     /\ data !! ATTR_TIMEEXTENSION = Some v0 /\ py_int v0 = Some n)
  /\ (forall k, k = ATTR_MULTIZONE_DISTANCES \/ k = ATTR_MULTIZONE_PROBABILITIES ->
        out !! k = data !! k).
Proof.
  intros Hok. unfold CONFIG_SCHEME in Hok.
  destruct (Schema_Some _ _ _ Hok) as [Hout Hall].
  destruct config_keys_apart as (H12 & H13 & H14 & H23 & H24 & H34).
  split; [|split; [|split]].
  - intros k. rewrite Hout. destruct (data !! k) as [v|] eqn:Hk; cbn.
    + split; intros _; [eexists; reflexivity | exact (Hall _ _ Hk)].
    + split; intros [x Hx]; discriminate.
  - intros v Hv. rewrite Hout in Hv.
    destruct (data !! ATTR_RAINDELAY) as [v0|]; [|discriminate].
    cbn in Hv. rewrite validate_item_config, decide_True in Hv by reflexivity.
    apply coerced_in_Some in Hv as (n & Hn & Hr & ->). eauto 10.
  - intros v Hv. rewrite Hout in Hv.
    destruct (data !! ATTR_TIMEEXTENSION) as [v0|]; [|discriminate].
    cbn in Hv. rewrite validate_item_config in Hv.
    rewrite decide_False in Hv by congruence.
    rewrite decide_True in Hv by reflexivity.
    apply coerced_in_Some in Hv as (n & Hn & Hr & ->). eauto 10.
  - intros k Hk. rewrite Hout.
    destruct (data !! k) as [v|] eqn:Hkv; [|reflexivity].
    cbn. destruct (Hall _ _ Hkv) as [v' Hv']. rewrite Hv'.
    rewrite validate_item_config in Hv'.
    rewrite decide_False in Hv' by (destruct Hk; congruence).
    rewrite decide_False in Hv' by (destruct Hk; congruence).
    rewrite decide_True in Hv' by exact Hk.
    apply only_str_Some in Hv' as [_ ->]. reflexivity.
Qed.

(** X16: validating is idempotent: data that the configuration scheme has
    handed back is accepted again and comes back unchanged. *)
Theorem CONFIG_SCHEME_idempotent (data out : gmap string PyValue) :
  config_scheme data = Some out ->
  config_scheme out = Some out.
Proof.
  unfold CONFIG_SCHEME. apply Schema_idempotent.
  intros k v v'. rewrite !validate_item_config.
  repeat case_decide; try discriminate.
  - intros Hv. apply coerced_in_Some in Hv as (n & _ & Hr & ->).
    apply coerced_in_Some. exists n. auto.
  - intros Hv. apply coerced_in_Some in Hv as (n & _ & Hr & ->).
    apply coerced_in_Some. exists n. auto.
  - intros Hv. apply only_str_Some in Hv as [Hs ->].
    apply only_str_Some. auto.
Qed.

End LandxcapeWholeData.

Lemma CONFIG_SCHEME_accepts_iff_witness :
  ascii_data example_config_data = true
  /\ (is_Some (CONFIG_SCHEME "raindelay" "timeextension"
             "multizone_distances" "multizone_probabilities" example_config_data)
  <-> (forall k v, example_config_data !! k = Some v ->
         (k = "raindelay" /\ exists n, py_int v = Some n /\ 0 <= n <= 300)
         \/ (k = "timeextension"
             /\ exists n, py_int v = Some n /\ -100 <= n <= 100)
         \/ ((k = "multizone_distances" \/ k = "multizone_probabilities")
             /\ exists s, v = PyStr s))).
Proof.
  split; [vm_compute; reflexivity|].
  apply (CONFIG_SCHEME_accepts_iff "raindelay" "timeextension"
           "multizone_distances" "multizone_probabilities"
           example_keys_distinct example_config_data).
  vm_compute. reflexivity.
Defined.

Lemma example_config_validated :
  CONFIG_SCHEME "raindelay" "timeextension"
    "multizone_distances" "multizone_probabilities" example_config_data
  = Some example_config_out.
Proof. vm_compute. reflexivity. Qed.

Lemma CONFIG_SCHEME_output_witness :
  example_config_out !! "multizone_distances"
  = example_config_data !! "multizone_distances".
Proof.
  exact (proj2 (proj2 (proj2
           (CONFIG_SCHEME_output "raindelay" "timeextension"
              "multizone_distances" "multizone_probabilities"
              example_keys_distinct example_config_data example_config_out
              example_config_validated)))
           "multizone_distances" (or_introl eq_refl)).
Defined.

Lemma CONFIG_SCHEME_idempotent_witness :
  CONFIG_SCHEME "raindelay" "timeextension"
    "multizone_distances" "multizone_probabilities" example_config_out
  = Some example_config_out.
Proof.
  exact (CONFIG_SCHEME_idempotent "raindelay" "timeextension"
           "multizone_distances" "multizone_probabilities"
           example_keys_distinct example_config_data example_config_out
           example_config_validated).
Defined.

(* ===================================================================== *)
(** * The one-time-schedule scheme *)
(* ===================================================================== *)

Section LandxcapeOTSFacts.

Variables ATTR_BOUNDARY ATTR_RUNTIME : string.

Hypothesis keys_differ : ATTR_BOUNDARY <> ATTR_RUNTIME.

Abbreviation ots_dict := (OTS_SCHEME_dict ATTR_BOUNDARY ATTR_RUNTIME).
Abbreviation ots_scheme := (OTS_SCHEME ATTR_BOUNDARY ATTR_RUNTIME).

(** The data after the defaults have been put in. *)
Lemma ots_provided (data : gmap string PyValue) (k : string) :
  (data ∪ omap marker_default ots_dict) !! k =
  match data !! k with
  | Some v => Some v
  | None =>
      if decide (k = ATTR_BOUNDARY) then Some (PyBool false)
      else if decide (k = ATTR_RUNTIME) then Some (PyInt 30)
      else None
  end.
Proof.
  destruct (data !! k) as [v|] eqn:Hk.
  - apply lookup_union_Some_l. exact Hk.
  - rewrite lookup_union_r by exact Hk.
    unfold OTS_SCHEME_dict. rewrite lookup_omap, !lookup_insert, lookup_empty.
    repeat case_decide; try subst k; try congruence; reflexivity.
Qed.

(** The scheme on one entry, by key. *)
Lemma validate_item_ots (k : string) (v : PyValue) :
  validate_item (snd <$> ots_dict) k v =
  if decide (k = ATTR_BOUNDARY) then only_bool v
  else if decide (k = ATTR_RUNTIME) then PyInt <$> py_int v
  else None.
Proof.
  unfold validate_item, OTS_SCHEME_dict.
  rewrite lookup_fmap, !lookup_insert, lookup_empty.
  repeat case_decide; try subst k; try congruence; cbn.
  - apply Coerce_int_valid.
  - destruct v; reflexivity.
  - reflexivity.
Qed.

(** Both keys have a default, so none is ever missing. *)
Lemma ots_nothing_missing (data : gmap string PyValue) :
  ots_scheme data = Schema (snd <$> ots_dict) (data ∪ omap marker_default ots_dict).
Proof.
  unfold OTS_SCHEME, MarkedSchema. cbv zeta. rewrite decide_True; [reflexivity|].
  intros k entry Hk _. rewrite ots_provided.
  destruct (data !! k); [eexists; reflexivity|].
  unfold OTS_SCHEME_dict in Hk. rewrite !lookup_insert, lookup_empty in Hk.
  repeat case_decide; try subst k; try congruence; try discriminate;
    eexists; reflexivity.
Qed.

(** The scheme, in closed form. *)
Lemma OTS_SCHEME_char (data out : gmap string PyValue) :
  ots_scheme data = Some out
  <-> (forall k, is_Some (data !! k) -> k = ATTR_BOUNDARY \/ k = ATTR_RUNTIME)
      /\ exists b n,
           ((data !! ATTR_BOUNDARY = None /\ b = false)
            \/ data !! ATTR_BOUNDARY = Some (PyBool b))
           /\ ((data !! ATTR_RUNTIME = None /\ n = 30)
               \/ exists v, data !! ATTR_RUNTIME = Some v /\ py_int v = Some n)
           /\ out = <[ATTR_RUNTIME := PyInt n]> {[ATTR_BOUNDARY := PyBool b]}.
Proof.
  rewrite ots_nothing_missing.
  assert (Hshape : forall out',
            Schema (snd <$> ots_dict) (data ∪ omap marker_default ots_dict) = Some out' ->
            (forall k, is_Some (data !! k) -> k = ATTR_BOUNDARY \/ k = ATTR_RUNTIME)
            /\ exists b n,
                 ((data !! ATTR_BOUNDARY = None /\ b = false)
                  \/ data !! ATTR_BOUNDARY = Some (PyBool b))
                 /\ ((data !! ATTR_RUNTIME = None /\ n = 30)
                     \/ exists v, data !! ATTR_RUNTIME = Some v /\ py_int v = Some n)
                 /\ out' = <[ATTR_RUNTIME := PyInt n]> {[ATTR_BOUNDARY := PyBool b]}).
  { intros out' Hok. destruct (Schema_Some _ _ _ Hok) as [Hout Hall].
    assert (Hkeys : forall k, is_Some (data !! k) ->
                              k = ATTR_BOUNDARY \/ k = ATTR_RUNTIME).
    { intros k [v Hk].
      assert (Hp : (data ∪ omap marker_default ots_dict) !! k = Some v)
        by (rewrite ots_provided, Hk; reflexivity).
      destruct (Hall _ _ Hp) as [v' Hv']. rewrite validate_item_ots in Hv'.
      repeat case_decide; auto; discriminate. }
    split; [exact Hkeys|].
    assert (Hb : exists b,
               ((data !! ATTR_BOUNDARY = None /\ b = false)
                \/ data !! ATTR_BOUNDARY = Some (PyBool b))
               /\ out' !! ATTR_BOUNDARY = Some (PyBool b)).
    { pose proof (Hout ATTR_BOUNDARY) as Ho.
      pose proof (Hall ATTR_BOUNDARY) as Ha.
      rewrite ots_provided in Ho, Ha.
      destruct (data !! ATTR_BOUNDARY) as [v|].
      - destruct (Ha _ eq_refl) as [v' Hv'].
        rewrite validate_item_ots, decide_True in Hv' by reflexivity.
        destruct v; try discriminate.
        exists b. split; [right; reflexivity|].
        rewrite Ho. cbn. rewrite validate_item_ots, decide_True by reflexivity.
        reflexivity.
      - exists false. split; [left; auto|].
        rewrite Ho, decide_True by reflexivity. cbn.
        rewrite validate_item_ots, decide_True by reflexivity. reflexivity. }
    assert (Hn : exists n,
               ((data !! ATTR_RUNTIME = None /\ n = 30)
                \/ exists v, data !! ATTR_RUNTIME = Some v /\ py_int v = Some n)
               /\ out' !! ATTR_RUNTIME = Some (PyInt n)).
    { pose proof (Hout ATTR_RUNTIME) as Ho.
      pose proof (Hall ATTR_RUNTIME) as Ha.
      rewrite ots_provided in Ho, Ha.
      destruct (data !! ATTR_RUNTIME) as [v|].
      - destruct (Ha _ eq_refl) as [v' Hv'].
        rewrite validate_item_ots in Hv'.
        rewrite decide_False, decide_True in Hv' by congruence.
        destruct (py_int v) as [n|] eqn:Hint; [|discriminate].
        exists n. split; [right; eauto|].
        rewrite Ho. cbn. rewrite validate_item_ots.
        rewrite decide_False, decide_True by congruence.
        rewrite Hint. reflexivity.
      - exists 30. split; [left; auto|].
        rewrite Ho. rewrite decide_False, decide_True by congruence. cbn.
        rewrite validate_item_ots.
        rewrite decide_False, decide_True by congruence. reflexivity. }
    destruct Hb as (b & Hb & Hob), Hn as (n & Hn & Hon).
    exists b, n. split; [exact Hb|]. split; [exact Hn|].
    apply map_eq. intros k. rewrite lookup_insert.
    case_decide as Hr.
    - subst k. exact Hon.
    - rewrite lookup_singleton. case_decide as Hbk.
      + subst k. exact Hob.
      + rewrite Hout, ots_provided.
        destruct (data !! k) as [v|] eqn:Hk.
        * destruct (Hkeys k (ex_intro _ v Hk)) as [E | E]; congruence.
        * rewrite decide_False, decide_False by congruence. reflexivity. }
  split; [apply Hshape|].
  intros (Hkeys & b & n & Hb & Hn & ->).
  assert (Hok : is_Some (Schema (snd <$> ots_dict)
                           (data ∪ omap marker_default ots_dict))).
  { apply Schema_accepts. intros k v Hk. rewrite ots_provided in Hk.
    rewrite validate_item_ots.
    destruct (data !! k) as [v0|] eqn:Hdk.
    - injection Hk as ->.
      destruct (Hkeys k (ex_intro _ _ Hdk)) as [-> | ->].
      + rewrite decide_True by reflexivity.
        destruct Hb as [[Hnone _] | Hsome]; [congruence|].
        rewrite Hsome in Hdk. injection Hdk as <-. eexists. reflexivity.
      + rewrite decide_False, decide_True by congruence.
        destruct Hn as [[Hnone _] | (v0 & Hsome & Hint)]; [congruence|].
        rewrite Hsome in Hdk. injection Hdk as <-. rewrite Hint.
        eexists. reflexivity.
    - repeat case_decide; try discriminate;
        injection Hk as <-; eexists; reflexivity. }
  destruct Hok as [out' Hout'].
  destruct (Hshape out' Hout') as (_ & b' & n' & Hb' & Hn' & ->).
  rewrite Hout'.
  assert (b' = b).
  { destruct Hb as [[Hnone ->] | Hsome], Hb' as [[Hnone' ->] | Hsome'];
      congruence. }
  assert (n' = n).
  { destruct Hn as [[Hnone ->] | (v & Hsome & Hint)],
             Hn' as [[Hnone' ->] | (v' & Hsome' & Hint')]; congruence. }
  subst. reflexivity.
Qed.

(** X17: the one-time-schedule scheme accepts service data, made of
    [None], [bool], [int], [float] and ASCII [str] values, exactly when it
    holds no key besides the boundary flag and the run-time, the boundary
    flag (when given) is a [bool], and the run-time (when given) coerces
    to an integer.  What it hands back always holds both keys: the
    boundary flag as given or [False], the run-time as the coerced integer
    or 30. *)
Theorem OTS_SCHEME_result (data out : gmap string PyValue) :
  ascii_data data = true ->
  ots_scheme data = Some out
  <-> (forall k, is_Some (data !! k) -> k = ATTR_BOUNDARY \/ k = ATTR_RUNTIME)
      /\ exists b n,
           ((data !! ATTR_BOUNDARY = None /\ b = false)
            \/ data !! ATTR_BOUNDARY = Some (PyBool b))
           /\ ((data !! ATTR_RUNTIME = None /\ n = 30)
               \/ exists v, data !! ATTR_RUNTIME = Some v /\ py_int v = Some n)
           /\ out = <[ATTR_RUNTIME := PyInt n]> {[ATTR_BOUNDARY := PyBool b]}.
Proof. intros _. exact (OTS_SCHEME_char data out). Qed.

(** X18: validating a one-time-schedule request is idempotent: what the
    scheme has handed back is accepted again and comes back unchanged,
    the defaults it put in included. *)
Theorem OTS_SCHEME_idempotent (data out : gmap string PyValue) :
  ots_scheme data = Some out ->
  ots_scheme out = Some out.
Proof.
  intros Hok. apply OTS_SCHEME_char in Hok as (_ & b & n & _ & _ & ->).
  apply OTS_SCHEME_char. split.
  - intros k [v Hk]. rewrite lookup_insert in Hk. case_decide; [auto|].
    rewrite lookup_singleton in Hk. case_decide; [auto | discriminate].
  - exists b, n. split; [|split; [|reflexivity]].
    + right. rewrite lookup_insert_ne by congruence. apply lookup_singleton_eq.
    + right. exists (PyInt n). split; [apply lookup_insert_eq | reflexivity].
Qed.

End LandxcapeOTSFacts.

Lemma example_ots_keys_differ : "boundary" <> "runtime".
Proof. discriminate. Qed.

Lemma OTS_SCHEME_result_witness :
  ascii_data example_ots_data = true
  /\ (OTS_SCHEME "boundary" "runtime" example_ots_data = Some example_ots_out
  <-> (forall k, is_Some (example_ots_data !! k) -> k = "boundary" \/ k = "runtime")
      /\ exists b n,
           ((example_ots_data !! "boundary" = None /\ b = false)
            \/ example_ots_data !! "boundary" = Some (PyBool b))
           /\ ((example_ots_data !! "runtime" = None /\ n = 30)
               \/ exists v, example_ots_data !! "runtime" = Some v
                            /\ py_int v = Some n)
           /\ example_ots_out
              = <["runtime" := PyInt n]> {["boundary" := PyBool b]}).
Proof.
  split; [vm_compute; reflexivity|].
  apply (OTS_SCHEME_result "boundary" "runtime" example_ots_keys_differ
           example_ots_data example_ots_out).
  vm_compute. reflexivity.
Defined.

Lemma example_ots_validated :
  OTS_SCHEME "boundary" "runtime" example_ots_data = Some example_ots_out.
Proof. vm_compute. reflexivity. Qed.

Lemma OTS_SCHEME_idempotent_witness :
  OTS_SCHEME "boundary" "runtime" example_ots_out = Some example_ots_out.
Proof.
  exact (OTS_SCHEME_idempotent "boundary" "runtime" example_ots_keys_differ
           example_ots_data example_ots_out example_ots_validated).
Defined.

(* ===================================================================== *)
(** * The device features of the model and the resolver *)
(* ===================================================================== *)

Ltac bit_kept :=
  apply Z.bits_inj'; intros n _;
  rewrite Z.land_spec, !Z.lor_spec;
  match goal with
  | |- _ && ?b = ?b => destruct b; rewrite ?orb_true_r, ?andb_false_r; reflexivity
  end.

(** X19: every feature that the Landxcape model declares in
    [DEVICE_FEATURES] is still flagged in the mask that [check_features]
    stores when it is called with the model's base features, whatever the
    device's capabilities are. *)
Theorem base_features_survive_resolver
    (LFS : LandroidFeatureSupport.t) (callback_func : option Callable) (w : World) :
  let stored :=
    LandroidAPI.features
      (self (snd (check_features LFS (DEVICE_FEATURES LFS) callback_func w))) in
  Z.land stored (LandroidFeatureSupport.MOWER LFS) = LandroidFeatureSupport.MOWER LFS
  /\ Z.land stored (LandroidFeatureSupport.BUTTON LFS) = LandroidFeatureSupport.BUTTON LFS
  /\ Z.land stored (LandroidFeatureSupport.LOCK LFS) = LandroidFeatureSupport.LOCK LFS
  /\ Z.land stored (LandroidFeatureSupport.CONFIG LFS) = LandroidFeatureSupport.CONFIG LFS
  /\ Z.land stored (LandroidFeatureSupport.RESTART LFS)
     = LandroidFeatureSupport.RESTART LFS
  /\ Z.land stored (LandroidFeatureSupport.SELECT LFS) = LandroidFeatureSupport.SELECT LFS
  /\ Z.land stored (LandroidFeatureSupport.SETZONE LFS)
     = LandroidFeatureSupport.SETZONE LFS
  /\ Z.land stored (LandroidFeatureSupport.SCHEDULES LFS)
     = LandroidFeatureSupport.SCHEDULES LFS.
Proof.
  cbv zeta. rewrite check_features_self.
  cbn [LandroidAPI.with_features LandroidAPI.features].
  unfold DEVICE_FEATURES.
  repeat match goal with
         | |- _ /\ _ => split
         end; bit_kept.
Qed.
